(** * Penney's Game scoring: a verification of [src/processing.py]

    The development embeds the scoring kernel [score_deck], the outcome
    classifier [calculate_winner], the pairwise matrix builder
    [play_one_deck] and the aggregator [sum_games] and proves the
    properties the specification states about them.

    Python's unbounded [int] is [Z]; Python's [str] is [string]; Python's
    [float] is a binary64 number, a [spec_float] of precision 53. *)

From Equations Require Import Equations.
From Equations.Prop Require Import Logic.
From Stdlib Require Import ZArith String Ascii List Lia Bool DecimalString.
From Stdlib Require Import Floats.SpecFloat.
From Stdlib Require DecimalPos DecimalZ.
Import ListNotations.

Local Open Scope string_scope.
Local Open Scope Z_scope.

(** ** Strings as Python has them *)

Module Py.

(** [len(s)] *)
Definition len (s : string) : Z := Z.of_nat (String.length s).

(** A slice bound brought into [0 .. len]: a negative bound counts from the
    end, and every bound is clamped to the string. *)
Definition clamp (n k : Z) : Z :=
  if k <? 0 then Z.max (k + n) 0 else Z.min k n.

(** [s[lo:hi]] *)
Definition slice (s : string) (lo hi : Z) : string :=
  let a := clamp (len s) lo in
  let b := clamp (len s) hi in
  substring (Z.to_nat a) (Z.to_nat (b - a)) s.

End Py.

(** ** The scoring kernel *)

(** The local variables of [score_deck], lines 25-32. *)
Record scan_state : Type := mkScan {
  p1_cards : Z;
  p2_cards : Z;
  pile : Z;
  p1_tricks : Z;
  p2_tricks : Z;
  i : Z
}.

(** Lines 25-32: the state on entry to the loop. *)
Definition scan_init : scan_state :=
  {| p1_cards := 0; p2_cards := 0; pile := 2;
     p1_tricks := 0; p2_tricks := 0; i := 0 |}.

(** Line 33: the guard [i < len(deck) - 2]. *)
Definition loop_cond (deck : string) (st : scan_state) : bool :=
  i st <? Py.len deck - 2.

(** Lines 34-49: one pass through the loop body. *)
Definition loop_body (deck seq1 seq2 : string) (st : scan_state) : scan_state :=
  let pile' := pile st + 1 in
  let current_sequence := Py.slice deck (i st) (i st + 3) in
  if (current_sequence =? seq1)%string then
    {| p1_cards := p1_cards st + pile'; p2_cards := p2_cards st; pile := 2;
       p1_tricks := p1_tricks st + 1; p2_tricks := p2_tricks st;
       i := i st + 3 |}
  else if (current_sequence =? seq2)%string then
    {| p1_cards := p1_cards st; p2_cards := p2_cards st + pile'; pile := 2;
       p1_tricks := p1_tricks st; p2_tricks := p2_tricks st + 1;
       i := i st + 3 |}
  else
    {| p1_cards := p1_cards st; p2_cards := p2_cards st; pile := pile';
       p1_tricks := p1_tricks st; p2_tricks := p2_tricks st;
       i := i st + 1 |}.

(** The distance of the cursor from the loop bound: what the [while] loop
    of line 33 consumes. *)
Definition scan_measure (deck : string) (st : scan_state) : nat :=
  Z.to_nat (Py.len deck - 2 - i st).

(** Lines 33-49: the [while] loop, from an arbitrary state. *)
Equations? scan_loop (deck seq1 seq2 : string) (st : scan_state) : scan_state
  by wf (scan_measure deck st) lt :=
  scan_loop deck seq1 seq2 st with inspect (loop_cond deck st) := {
    | exist _ true _ := scan_loop deck seq1 seq2 (loop_body deck seq1 seq2 st)
    | exist _ false _ := st }.
Proof.
  unfold loop_cond in e. apply Z.ltb_lt in e.
  unfold scan_measure, loop_body.
  destruct (_ =? seq1)%string; [| destruct (_ =? seq2)%string]; cbn [i]; lia.
Qed.

(** Line 51: the returned tuple. *)
Definition outputs (st : scan_state) : Z * Z * Z * Z :=
  (p1_cards st, p2_cards st, p1_tricks st, p2_tricks st).

Definition score_deck (deck seq1 seq2 : string) : Z * Z * Z * Z :=
  outputs (scan_loop deck seq1 seq2 scan_init).


(** ** The outcome classifier *)

(** Lines 76-91: the four flags start at 0 and each comparison sets at most
    one of its two. *)
Definition calculate_winner (p1_cards p2_cards p1_tricks p2_tricks : Z)
  : Z * Z * Z * Z :=
  let cards_winner := 0 in
  let cards_draw := 0 in
  let tricks_winner := 0 in
  let tricks_draw := 0 in
  let '(cards_winner, cards_draw) :=
    if p1_cards <? p2_cards then (1, cards_draw)
    else if p1_cards =? p2_cards then (cards_winner, 1)
    else (cards_winner, cards_draw) in
  let '(tricks_winner, tricks_draw) :=
    if p1_tricks <? p2_tricks then (1, tricks_draw)
    else if p1_tricks =? p2_tricks then (tricks_winner, 1)
    else (tricks_winner, tricks_draw) in
  (cards_winner, cards_draw, tricks_winner, tricks_draw).

(** ** Exceptions *)

Inductive exn : Type :=
| ValueError | KeyError | TypeError | ZeroDivisionError | OverflowError
| OSError.

Inductive result (A : Type) : Type :=
| Ok (a : A)
| Raise (e : exn).
Arguments Ok {A} a.
Arguments Raise {A} e.

Definition bind {A B : Type} (m : result A) (k : A -> result B) : result B :=
  match m with
  | Ok a => k a
  | Raise e => Raise e
  end.

Notation "x <- m ;; k" := (bind m (fun x => k))
  (at level 61, m at next level, right associativity).

(** A [for] loop whose body may raise. *)
Fixpoint for_each {A S : Type} (body : S -> A -> result S) (xs : list A) (s : S)
  : result S :=
  match xs with
  | [] => Ok s
  | x :: xs' => s' <- body s x ;; for_each body xs' s'
  end.

(** ** Labelled tables *)

(** A cell of an object column: [None] is the NaN of a cell never written. *)
Definition cell : Type := option Z.

(** What [np.save] receives once a table is turned into an array: the rows,
    without labels. *)
Definition object_array : Type := list (list cell).

Module Frame.

Record t : Type := mk {
  index : list string;
  columns : list string;
  values : object_array
}.

(** [pd.DataFrame(columns=cols, index=idx)]: every cell NaN. *)
Definition empty (cols idx : list string) : t :=
  {| index := idx; columns := cols;
     values := repeat (repeat None (length cols)) (length idx) |}.

(** Position of the first occurrence of a label. *)
Fixpoint position (labels : list string) (x : string) : option nat :=
  match labels with
  | [] => None
  | y :: rest =>
      if (y =? x)%string then Some O
      else option_map S (position rest x)
  end.

Fixpoint update {A : Type} (n : nat) (f : A -> A) (l : list A) : list A :=
  match l, n with
  | [], _ => []
  | x :: rest, O => f x :: rest
  | x :: rest, S n' => x :: update n' f rest
  end.

(** A new label enlarges the table by a row (resp. a column) of NaN. *)
Definition with_row (df : t) (r : string) : t :=
  match position (index df) r with
  | Some _ => df
  | None => {| index := (index df ++ [r])%list; columns := columns df;
               values := (values df ++ [repeat None (length (columns df))])%list |}
  end.

Definition with_column (df : t) (c : string) : t :=
  match position (columns df) c with
  | Some _ => df
  | None => {| index := index df; columns := (columns df ++ [c])%list;
               values := map (fun row => (row ++ [None])%list) (values df) |}
  end.

(** [df.at[r, c] = v] *)
Definition set_at (df : t) (r c : string) (v : Z) : t :=
  let df := with_column (with_row df r) c in
  match position (index df) r, position (columns df) c with
  | Some a, Some b =>
      {| index := index df; columns := columns df;
         values := update a (update b (fun _ => Some v)) (values df) |}
  | _, _ => df
  end.

(** [df.loc[labels, :]]: the rows named, in the order named. *)
Definition loc_rows (df : t) (labels : list string) : result t :=
  rows <- for_each
            (fun acc r =>
               match position (index df) r with
               | Some a => Ok (acc ++ [nth a (values df) []])%list
               | None => Raise KeyError
               end) labels [] ;;
  Ok {| index := labels; columns := columns df; values := rows |}.

End Frame.

(** ** The host: the file system and numpy's persistence *)

(** The rows of a two-dimensional object array of Python integers, all of
    one length: what [np.save] writes for a table of flags. *)
Definition int_array : Type := list (list Z).

(** The rows of a two-dimensional object array of Python floats. *)
Definition float_array : Type := list (list spec_float).

(** An array as [np.load] returns it.  Object arrays of Python integers and
    of Python floats are known entry by entry; an array of any other kind (a
    fixed-width dtype, another rank, other objects) is a value of the host's
    own, on which only the host says what numpy does. *)
Inductive ndarray (foreign : Type) : Type :=
| IntObjects (rows : int_array)
| FloatObjects (rows : float_array)
| Foreign (a : foreign).
Arguments IntObjects {foreign} rows.
Arguments FloatObjects {foreign} rows.
Arguments Foreign {foreign} a.

Class Host : Type := {
  world : Type;
  foreign : Type;
  os_listdir : string -> world -> result (list string);
  os_path_isfile : string -> world -> bool;
  os_path_join : string -> string -> string;
  np_load : string -> world -> result (ndarray foreign);
  np_save : string -> object_array -> world -> result world;
  (** [a += b] where the two are not object arrays of Python integers of
      one shape: numpy casts, broadcasts, wraps or raises as it sees fit. *)
  np_iadd_other : ndarray foreign -> ndarray foreign -> result (ndarray foreign);
  (** [np.divide(a, n)] where [a] is not an object array of Python
      integers. *)
  np_divide_other : ndarray foreign -> Z -> result (ndarray foreign);
  (** [int(s, 2)] on a string that is not a plain run of binary digits:
      Python also reads signs, a [0b] prefix, underscores and surrounding
      blanks, and raises [ValueError] on the rest. *)
  int_literal : string -> result Z;
  (** [sys.get_int_max_str_digits()]: the longest integer [str] prints, in
      decimal digits; 0 for no limit, 4300 unless configured. *)
  int_max_str_digits : Z
}.

(** ** The pairwise matrix builder *)

(** The value of a plain run of binary digits, most significant first;
    [None] when a symbol is not a binary digit. *)
Fixpoint bin_digits (s : string) (acc : Z) : option Z :=
  match s with
  | EmptyString => Some acc
  | String c rest =>
      if (c =? "0")%char then bin_digits rest (2 * acc)
      else if (c =? "1")%char then bin_digits rest (2 * acc + 1)
      else None
  end.

(** Line 109. *)
Definition sequences : list string :=
  ["000"; "001"; "010"; "011"; "100"; "101"; "110"; "111"].

(** The four tables of lines 111-114. *)
Record tables : Type := mkTables {
  p2_wins_cards : Frame.t;
  p2_wins_tricks : Frame.t;
  draws_cards : Frame.t;
  draws_tricks : Frame.t
}.

(** Lines 117-123: the body of the loop over the pairs. *)
Definition play_pair (deck : string) (tb : tables) (pair : string * string)
  : tables :=
  let '(seq1, seq2) := pair in
  let '(p1_cards, p2_cards, p1_tricks, p2_tricks) := score_deck deck seq1 seq2 in
  let '(cards_winner, cards_draw, tricks_winner, tricks_draw) :=
    calculate_winner p1_cards p2_cards p1_tricks p2_tricks in
  {| p2_wins_cards := Frame.set_at (p2_wins_cards tb) seq1 seq2 cards_winner;
     p2_wins_tricks := Frame.set_at (p2_wins_tricks tb) seq1 seq2 tricks_winner;
     draws_cards := Frame.set_at (draws_cards tb) seq1 seq2 cards_draw;
     draws_tricks := Frame.set_at (draws_tricks tb) seq1 seq2 tricks_draw |}.

(** The flags of a pair of sequences on a deck: lines 117-118. *)
Definition classify (deck seq1 seq2 : string) : Z * Z * Z * Z :=
  let '(p1_cards, p2_cards, p1_tricks, p2_tricks) := score_deck deck seq1 seq2 in
  calculate_winner p1_cards p2_cards p1_tricks p2_tricks.

Section WithHost.
Context {H : Host}.

(** [int(s, 2)]: the empty string is not a literal, a run of binary digits
    has its value, and any other string is read by the host. *)
Definition int_base2 (s : string) : result Z :=
  match s with
  | EmptyString => Raise ValueError
  | _ => match bin_digits s 0 with
         | Some n => Ok n
         | None => int_literal s
         end
  end.

(** [str(n)]: the decimal numeral, refused beyond the host's digit limit. *)
Definition str (n : Z) : result string :=
  if (0 <? int_max_str_digits) && (10 ^ int_max_str_digits <=? Z.abs n)
  then Raise ValueError
  else Ok (NilZero.string_of_int (Z.to_int n)).

(** Lines 109-143.  The tuple returned is
    [(p2_wins_cards, p2_wins_tricks, draws_cards, draws_tricks)]. *)
Definition play_one_deck (deck data : string) (batched : bool) (w : world)
  : result (tables * world) :=
  let combinations := list_prod sequences sequences in
  let fresh := Frame.empty sequences sequences in
  let tb := fold_left (play_pair deck) combinations
              (mkTables fresh fresh fresh fresh) in
  n <- int_base2 deck ;;
  deck_name <- str n ;;
  let reversed_sequences := rev sequences in
  wc <- Frame.loc_rows (p2_wins_cards tb) reversed_sequences ;;
  wt <- Frame.loc_rows (p2_wins_tricks tb) reversed_sequences ;;
  dc <- Frame.loc_rows (draws_cards tb) reversed_sequences ;;
  dt <- Frame.loc_rows (draws_tricks tb) reversed_sequences ;;
  let out := mkTables wc wt dc dt in
  if batched then Ok (out, w)
  else
    w <- np_save (data ++ "/cards/" ++ deck_name ++ ".npy") (Frame.values wc) w ;;
    w <- np_save (data ++ "/tricks/" ++ deck_name ++ ".npy") (Frame.values wt) w ;;
    w <- np_save (data ++ "/cards_ties/" ++ deck_name ++ ".npy") (Frame.values dc) w ;;
    w <- np_save (data ++ "/tricks_ties/" ++ deck_name ++ ".npy") (Frame.values dt) w ;;
    Ok (out, w).

(** Lines 157-161. *)
Definition batch_save (batch_cards batch_tricks batch_cards_ties
                       batch_tricks_ties : object_array)
                      (name data : string) (w : world) : result world :=
  w <- np_save (data ++ "/cards/batch_" ++ name ++ ".npy") batch_cards w ;;
  w <- np_save (data ++ "/tricks/batch_" ++ name ++ ".npy") batch_tricks w ;;
  w <- np_save (data ++ "/cards_ties/batch_" ++ name ++ ".npy") batch_cards_ties w ;;
  np_save (data ++ "/tricks_ties/batch_" ++ name ++ ".npy") batch_tricks_ties w.

End WithHost.

(** ** The aggregator *)

Fixpoint map2 {A B C : Type} (f : A -> B -> C) (xs : list A) (ys : list B)
  : list C :=
  match xs, ys with
  | x :: xs', y :: ys' => f x y :: map2 f xs' ys'
  | _, _ => []
  end.

(** The length of every row. *)
Definition shape {A : Type} (m : list (list A)) : list nat :=
  map (@List.length A) m.


(** Visit every element of an array with a function that may raise. *)
Fixpoint traverse {A B : Type} (f : A -> result B) (xs : list A)
  : result (list B) :=
  match xs with
  | [] => Ok []
  | x :: xs' => y <- f x ;; ys <- traverse f xs' ;; Ok (y :: ys)
  end.

(** A Python integer as the operand of a float division. *)
Definition int_float (x : Z) : spec_float :=
  match x with
  | 0 => S754_zero false
  | Zpos p => S754_finite false p 0
  | Zneg p => S754_finite true p 0
  end.

(** [x / n] on Python integers: the binary64 number nearest to the
    quotient, ties to even; no division by 0, and no quotient beyond the
    largest float. *)
Definition truediv (x n : Z) : result spec_float :=
  if n =? 0 then Raise ZeroDivisionError
  else
    match SFdiv 53 1024 (int_float x) (int_float n) with
    | S754_infinity _ => Raise OverflowError
    | quotient => Ok quotient
    end.

Section Aggregator.
Context {H : Host}.

(** The first component of what [sum_games] returns: [None], the total, or
    the quotient of the total by the count. *)
Inductive total : Type :=
| NoTotal
| Sum (m : ndarray foreign)
| Mean (m : ndarray foreign).

(** [a += b]: entry by entry on object arrays of Python integers of one
    shape, whose sums are exact; all else is the host's. *)
Definition np_iadd (a b : ndarray foreign) : result (ndarray foreign) :=
  match a, b with
  | IntObjects x, IntObjects y =>
      if list_eq_dec Nat.eq_dec (shape x) (shape y)
      then Ok (IntObjects (map2 (map2 Z.add) x y))
      else np_iadd_other a b
  | _, _ => np_iadd_other a b
  end.

(** [np.divide(games_total, num_games)]: [None] cannot be divided; an object
    array of Python integers is divided entry by entry, in row order, into
    an object array of floats; all else is the host's. *)
Definition np_divide (games_total : option (ndarray foreign)) (num_games : Z)
  : result (ndarray foreign) :=
  match games_total with
  | None => Raise TypeError
  | Some (IntObjects m) =>
      rows <- traverse (traverse (fun x => truediv x num_games)) m ;;
      Ok (FloatObjects rows)
  | Some a => np_divide_other a num_games
  end.

(** Lines 178-193. *)
Definition sum_games (data : string) (average : bool) (batched_num_games : Z)
                     (batched : bool) (w : world) : result (total * Z) :=
  names <- os_listdir data w ;;
  let files :=
    filter (fun file => os_path_isfile (os_path_join data file) w) names in
  games_total <-
    for_each
      (fun games_total file =>
         let file_path := os_path_join data file in
         game <- np_load file_path w ;;
         match games_total with
         | None => Ok (Some game)
         | Some acc => acc' <- np_iadd acc game ;; Ok (Some acc')
         end)
      files None ;;
  let num_games :=
    if batched then batched_num_games else Z.of_nat (length files) in
  if average then
    mean <- np_divide games_total num_games ;;
    Ok (Mean mean, num_games)
  else
    Ok (match games_total with
        | None => NoTotal
        | Some m => Sum m
        end, num_games).

End Aggregator.

(** ** The tables the matrix builder is to produce *)

Definition cards_winner_of (flags : Z * Z * Z * Z) : Z :=
  let '(cards_winner, _, _, _) := flags in cards_winner.
Definition cards_draw_of (flags : Z * Z * Z * Z) : Z :=
  let '(_, cards_draw, _, _) := flags in cards_draw.
Definition tricks_winner_of (flags : Z * Z * Z * Z) : Z :=
  let '(_, _, tricks_winner, _) := flags in tricks_winner.
Definition tricks_draw_of (flags : Z * Z * Z * Z) : Z :=
  let '(_, _, _, tricks_draw) := flags in tricks_draw.

(** Rows labelled by [seq1] from "111" down to "000", columns by [seq2] from
    "000" up to "111", and in every cell the flag of that pair. *)
Definition full_table (deck : string) (flag : Z * Z * Z * Z -> Z) : Frame.t :=
  {| Frame.index := rev sequences;
     Frame.columns := sequences;
     Frame.values :=
       map (fun seq1 =>
              map (fun seq2 => Some (flag (classify deck seq1 seq2))) sequences)
           (rev sequences) |}.

Definition full_tables (deck : string) : tables :=
  {| p2_wins_cards := full_table deck cards_winner_of;
     p2_wins_tricks := full_table deck tricks_winner_of;
     draws_cards := full_table deck cards_draw_of;
     draws_tricks := full_table deck tricks_draw_of |}.

(** A deck that line 125 can name: at least one symbol, every symbol a
    binary digit. *)
Fixpoint binary_digits (s : string) : bool :=
  match s with
  | EmptyString => true
  | String c rest => ((c =? "0")%char || (c =? "1")%char) && binary_digits rest
  end.

Definition binary_deck (deck : string) : bool :=
  negb (deck =? "")%string && binary_digits deck.

(** A host for examples: fixed directory listings, files that all hold
    object arrays of Python integers, writes that always succeed, the
    default digit limit, and nothing read or computed beyond that. *)
Definition lookup {A : Type} (k : string) (l : list (string * A)) : option A :=
  option_map snd (find (fun e => (fst e =? k)%string) l).

Definition table_host (dirs : list (string * list string))
                      (files : list (string * int_array)) : Host :=
  {| world := unit;
     foreign := Empty_set;
     os_listdir := fun d _ =>
       match lookup d dirs with Some l => Ok l | None => Raise OSError end;
     os_path_isfile := fun p _ =>
       match lookup p files with Some _ => true | None => false end;
     os_path_join := fun a b => a ++ "/" ++ b;
     np_load := fun p _ =>
       match lookup p files with
       | Some m => Ok (IntObjects m)
       | None => Raise OSError
       end;
     np_save := fun _ _ w => Ok w;
     np_iadd_other := fun _ _ => Raise ValueError;
     np_divide_other := fun _ _ => Raise TypeError;
     int_literal := fun _ => Raise ValueError;
     int_max_str_digits := 4300 |}.

(** A host with a directory of two saved games and a directory of one. *)
Definition example_host : Host :=
  table_host
    [("two", ["a.npy"; "b.npy"]); ("one", ["m.npy"])]
    [("two/a.npy", [[1; 0]; [0; 1]]);
     ("two/b.npy", [[0; 1]; [1; 1]]);
     ("one/m.npy", [[3; 0]; [2; 5]])].

(** ** The scan in the words of the specification *)

(** The window of three symbols starting at [i]. *)
Definition spec_window (deck : string) (i : Z) : string :=
  substring (Z.to_nat i) 3 deck.

(** [spec_scan deck seq1 seq2 i pile score final]: the scan, resumed with the
    cursor at [i], the pile at [pile] and the score tuple [score], ends with
    the tuple [final]. *)
Inductive spec_scan (deck seq1 seq2 : string)
  : Z -> Z -> Z * Z * Z * Z -> Z * Z * Z * Z -> Prop :=
| spec_end i pile score :
    ~ i < Py.len deck - 2 ->
    spec_scan deck seq1 seq2 i pile score score
| spec_player1 i pile c1 c2 t1 t2 final :
    i < Py.len deck - 2 ->
    spec_window deck i = seq1 ->
    spec_scan deck seq1 seq2 (i + 3) 2 (c1 + (pile + 1), c2, t1 + 1, t2) final ->
    spec_scan deck seq1 seq2 i pile (c1, c2, t1, t2) final
| spec_player2 i pile c1 c2 t1 t2 final :
    i < Py.len deck - 2 ->
    spec_window deck i <> seq1 ->
    spec_window deck i = seq2 ->
    spec_scan deck seq1 seq2 (i + 3) 2 (c1, c2 + (pile + 1), t1, t2 + 1) final ->
    spec_scan deck seq1 seq2 i pile (c1, c2, t1, t2) final
| spec_advance i pile c1 c2 t1 t2 final :
    i < Py.len deck - 2 ->
    spec_window deck i <> seq1 ->
    spec_window deck i <> seq2 ->
    spec_scan deck seq1 seq2 (i + 1) (pile + 1) (c1, c2, t1, t2) final ->
    spec_scan deck seq1 seq2 i pile (c1, c2, t1, t2) final.

(** The states in which the guard of line 33 is evaluated. *)
Inductive loop_head (deck seq1 seq2 : string) : scan_state -> Prop :=
| head_entry : loop_head deck seq1 seq2 scan_init
| head_again st :
    loop_head deck seq1 seq2 st ->
    loop_cond deck st = true ->
    loop_head deck seq1 seq2 (loop_body deck seq1 seq2 st).

(** What the scan keeps true at every loop head: the cards awarded and the
    cards on the pile beyond its base of 2 account for the symbols passed, and
    every trick is worth at least three cards. *)
Record scan_inv (deck : string) (st : scan_state) : Prop := {
  inv_c1 : 0 <= p1_cards st;
  inv_c2 : 0 <= p2_cards st;
  inv_t1 : 0 <= p1_tricks st;
  inv_t2 : 0 <= p2_tricks st;
  inv_pile : 2 <= pile st;
  inv_passed : p1_cards st + p2_cards st + (pile st - 2) = i st;
  inv_bound : i st <= Py.len deck;
  inv_worth1 : 3 * p1_tricks st <= p1_cards st;
  inv_worth2 : 3 * p2_tricks st <= p2_cards st;
  inv_none1 : p1_tricks st = 0 -> p1_cards st = 0;
  inv_none2 : p2_tricks st = 0 -> p2_cards st = 0
}.

(** The classifier's rule for one metric, in the words of the
    specification. *)
Definition metric_rule (p1 p2 winner draw : Z) : Prop :=
  (p1 < p2 -> winner = 1 /\ draw = 0) /\
  (p1 = p2 -> winner = 0 /\ draw = 1) /\
  (p2 < p1 -> winner = 0 /\ draw = 0).

(** The same state with the two players exchanged. *)
Definition swap_players (st : scan_state) : scan_state :=
  {| p1_cards := p2_cards st; p2_cards := p1_cards st; pile := pile st;
     p1_tricks := p2_tricks st; p2_tricks := p1_tricks st; i := i st |}.

(** Line 125: the name under which the tables of a deck are saved. *)
Definition deck_name {H : Host} (deck : string) : result string :=
  n <- int_base2 deck ;; str n.

(** The element-wise sum of the entries at row [r], column [c]. *)
Definition entry_sum (r c : nat) (games : list int_array) : Z :=
  fold_right Z.add 0 (map (fun game => nth c (nth r game []) 0) games).

(** The cell of a table at a row label and a column label; NaN where
    either label is missing. *)
Definition cell_at (df : Frame.t) (r c : string) : cell :=
  match Frame.position (Frame.index df) r,
        Frame.position (Frame.columns df) c with
  | Some a, Some b => nth b (nth a (Frame.values df) []) None
  | _, _ => None
  end.

(** The state of a scan that has passed [k] cursors without a match. *)
Definition passed (k : Z) : scan_state :=
  {| p1_cards := 0; p2_cards := 0; pile := 2 + k;
     p1_tricks := 0; p2_tricks := 0; i := k |}.


(** The tricks, and the cards, of the windows equal to [s] that the first
    [n] passes from a state meet when both players have chosen [s]: one
    trick, and the pile grown by one, for each. *)
Fixpoint matched_tricks (deck s : string) (n : nat) (st : scan_state) : Z :=
  match n with
  | O => 0
  | S n' =>
      (if (Py.slice deck (i st) (i st + 3) =? s)%string then 1 else 0) +
      matched_tricks deck s n' (loop_body deck s s st)
  end.

Fixpoint matched_cards (deck s : string) (n : nat) (st : scan_state) : Z :=
  match n with
  | O => 0
  | S n' =>
      (if (Py.slice deck (i st) (i st + 3) =? s)%string then pile st + 1 else 0) +
      matched_cards deck s n' (loop_body deck s s st)
  end.

(** * Properties *)

(** ** The loop *)

Lemma scan_loop_eq deck seq1 seq2 st :
  scan_loop deck seq1 seq2 st =
  if loop_cond deck st
  then scan_loop deck seq1 seq2 (loop_body deck seq1 seq2 st)
  else st.
Proof.
  rewrite (scan_loop_equation_1 deck seq1 seq2 st).
  destruct (inspect (loop_cond deck st)) as [[|] e]; simpl; rewrite e;
    reflexivity.
Qed.

(** Every pass moves the cursor forward, by one symbol or by three. *)
Lemma loop_body_cursor deck seq1 seq2 st :
  i (loop_body deck seq1 seq2 st) = i st + 1 \/
  i (loop_body deck seq1 seq2 st) = i st + 3.
Proof.
  unfold loop_body.
  destruct (_ =? seq1)%string; [| destruct (_ =? seq2)%string]; cbn [i]; auto.
Qed.

Lemma loop_body_measure deck seq1 seq2 st :
  loop_cond deck st = true ->
  (scan_measure deck (loop_body deck seq1 seq2 st) < scan_measure deck st)%nat.
Proof.
  unfold loop_cond, scan_measure. intros Hc. apply Z.ltb_lt in Hc.
  destruct (loop_body_cursor deck seq1 seq2 st) as [E | E]; rewrite E; lia.
Qed.

(** Induction along the runs of the loop. *)
Lemma scan_loop_ind' deck seq1 seq2 (P : scan_state -> scan_state -> Prop) :
  (forall st, loop_cond deck st = false -> P st st) ->
  (forall st final,
      loop_cond deck st = true ->
      P (loop_body deck seq1 seq2 st) final -> P st final) ->
  forall st, P st (scan_loop deck seq1 seq2 st).
Proof.
  intros Hstop Hstep st.
  remember (scan_measure deck st) as m eqn:Hm.
  revert st Hm. induction m as [m IH] using lt_wf_ind. intros st Hm.
  rewrite scan_loop_eq. destruct (loop_cond deck st) eqn:Hc.
  - apply Hstep; [exact Hc |].
    apply (IH (scan_measure deck (loop_body deck seq1 seq2 st))); [| reflexivity].
    subst m. apply loop_body_measure, Hc.
  - apply Hstop, Hc.
Qed.

(** A property kept by every pass made under the guard holds when the loop
    is left, where the guard is false. *)
Lemma scan_loop_invariant deck seq1 seq2 (Inv : scan_state -> Prop) :
  (forall st, Inv st -> loop_cond deck st = true ->
              Inv (loop_body deck seq1 seq2 st)) ->
  forall st, Inv st ->
    Inv (scan_loop deck seq1 seq2 st) /\
    loop_cond deck (scan_loop deck seq1 seq2 st) = false.
Proof.
  intros Hkeep st.
  apply (scan_loop_ind' deck seq1 seq2
           (fun st final => Inv st -> Inv final /\ loop_cond deck final = false)).
  - auto.
  - intros st0 final Hc IH Hst. apply IH, Hkeep; assumption.
Qed.

Lemma scan_inv_init deck : scan_inv deck scan_init.
Proof.
  constructor; cbn; try lia. unfold Py.len. lia.
Qed.

Lemma scan_inv_body deck seq1 seq2 st :
  scan_inv deck st -> loop_cond deck st = true ->
  scan_inv deck (loop_body deck seq1 seq2 st).
Proof.
  intros [] Hc. unfold loop_cond in Hc. apply Z.ltb_lt in Hc.
  unfold loop_body.
  destruct (_ =? seq1)%string; [| destruct (_ =? seq2)%string];
    constructor; cbn [p1_cards p2_cards pile p1_tricks p2_tricks i]; lia.
Qed.

Lemma loop_head_inv deck seq1 seq2 st :
  loop_head deck seq1 seq2 st -> scan_inv deck st.
Proof.
  induction 1 as [| st Hst IH Hc].
  - apply scan_inv_init.
  - apply scan_inv_body; assumption.
Qed.

Lemma scan_inv_final deck seq1 seq2 :
  scan_inv deck (scan_loop deck seq1 seq2 scan_init).
Proof.
  apply (scan_loop_invariant deck seq1 seq2 (scan_inv deck)).
  - intros st Hst Hc. apply scan_inv_body; assumption.
  - apply scan_inv_init.
Qed.

(** ** The scoring kernel *)

(** C3: for every deck and every pair of sequences the four outputs of
    [score_deck] are non-negative, the cards of the two players sum to at
    most the length of the deck and their tricks to at most a third of it,
    rounded down. *)
Theorem score_deck_bounds (deck seq1 seq2 : string) :
  let '(c1, c2, t1, t2) := score_deck deck seq1 seq2 in
  0 <= c1 /\ 0 <= c2 /\ 0 <= t1 /\ 0 <= t2 /\
  c1 + c2 <= Py.len deck /\
  t1 + t2 <= Py.len deck / 3.
Proof.
  unfold score_deck, outputs.
  destruct (scan_inv_final deck seq1 seq2).
  repeat split; try lia.
  apply Z.div_le_lower_bound; lia.
Qed.

(** C10: at every loop head the pile is at least 2, so a pass that awards a
    trick awards at least three cards with it; hence at the end each player
    holds at least three cards per trick, and holds no card exactly when they
    hold no trick. *)
Theorem score_deck_pile_floor (deck seq1 seq2 : string) :
  (forall st, loop_head deck seq1 seq2 st ->
     2 <= pile st /\
     (p1_tricks (loop_body deck seq1 seq2 st) <> p1_tricks st ->
      p1_cards st + 3 <= p1_cards (loop_body deck seq1 seq2 st)) /\
     (p2_tricks (loop_body deck seq1 seq2 st) <> p2_tricks st ->
      p2_cards st + 3 <= p2_cards (loop_body deck seq1 seq2 st))) /\
  let '(c1, c2, t1, t2) := score_deck deck seq1 seq2 in
  3 * t1 <= c1 /\ 3 * t2 <= c2 /\ (c1 = 0 <-> t1 = 0) /\ (c2 = 0 <-> t2 = 0).
Proof.
  split.
  - intros st Hst. destruct (loop_head_inv _ _ _ _ Hst).
    unfold loop_body.
    destruct (_ =? seq1)%string; [| destruct (_ =? seq2)%string];
      cbn [p1_cards p2_cards pile p1_tricks p2_tricks i]; lia.
  - unfold score_deck, outputs.
    destruct (scan_inv_final deck seq1 seq2). lia.
Qed.

(** C6: on the alternating deck of length 10 with "010" against "101", the
    first pass finds "010" at cursor 0 with the pile at 3, gives player 1
    three cards and one trick and moves the cursor to 3; the complete scan
    returns (6, 3, 2, 1). *)
Theorem score_deck_alternating :
  loop_cond "0101010101" scan_init = true /\
  Py.slice "0101010101" 0 3 = "010" /\
  loop_body "0101010101" "010" "101" scan_init =
    {| p1_cards := 3; p2_cards := 0; pile := 2;
       p1_tricks := 1; p2_tricks := 0; i := 3 |} /\
  score_deck "0101010101" "010" "101" = (6, 3, 2, 1).
Proof.
  repeat split; vm_compute; reflexivity.
Qed.

(** A deck of length 3 is not too short for the scan: the guard admits the
    cursor 0 and the deck itself is the one window compared. *)
Lemma score_deck_length_three :
  Py.len "000" < 4 /\
  loop_cond "000" scan_init = true /\
  score_deck "000" "000" "111" = (3, 0, 1, 0) /\
  score_deck "000" "000" "111" <> (0, 0, 0, 0).
Proof.
  repeat split; try (vm_compute; reflexivity).
  vm_compute. discriminate.
Qed.

(** C2, amended: a deck of fewer than 3 symbols leaves the scan range empty
    and all four outputs 0; a deck of exactly 3 symbols is compared once, and
    the outputs are all 0 unless the deck is one of the two sequences, which
    then takes the three cards and the trick (player 1 first). *)
Theorem score_deck_short (deck seq1 seq2 : string) :
  Py.len deck < 4 ->
  score_deck deck seq1 seq2 =
    if Py.len deck <? 3 then (0, 0, 0, 0)
    else if (deck =? seq1)%string then (3, 0, 1, 0)
    else if (deck =? seq2)%string then (0, 3, 0, 1)
    else (0, 0, 0, 0).
Proof.
  intros Hlen. unfold score_deck.
  destruct deck as [| a [| b [| c [| d rest]]]];
    try (rewrite scan_loop_eq; reflexivity).
  - rewrite scan_loop_eq.
    change (loop_cond (String a (String b (String c ""))) scan_init) with true.
    cbv iota.
    unfold loop_body.
    change (Py.slice (String a (String b (String c ""))) (i scan_init)
              (i scan_init + 3)) with (String a (String b (String c ""))).
    change (Py.len (String a (String b (String c ""))) <? 3) with false.
    cbv iota.
    destruct (_ =? seq1)%string; [| destruct (_ =? seq2)%string];
      rewrite scan_loop_eq; reflexivity.
  - exfalso. unfold Py.len in Hlen. cbn [String.length] in Hlen. lia.
Qed.

Lemma score_deck_short_witness :
  score_deck "01" "010" "101" = (0, 0, 0, 0) /\
  score_deck "101" "010" "101" = (0, 3, 0, 1).
Proof.
  split.
  - apply (score_deck_short "01" "010" "101"). vm_compute. reflexivity.
  - apply (score_deck_short "101" "010" "101"). vm_compute. reflexivity.
Defined.

(** C7: every pass moves the cursor forward by 1 or by 3 and, made under the
    guard, brings it strictly nearer to the fixed bound [len(deck) - 2]; so
    the loop is left after at most [len(deck)] passes, and what [score_deck]
    returns is the state reached then. *)
Theorem score_deck_terminates (deck seq1 seq2 : string) :
  (forall st,
     (i (loop_body deck seq1 seq2 st) = i st + 1 \/
      i (loop_body deck seq1 seq2 st) = i st + 3) /\
     (loop_cond deck st = true ->
      (scan_measure deck (loop_body deck seq1 seq2 st) < scan_measure deck st)%nat)) /\
  exists n : nat,
    (n <= String.length deck)%nat /\
    (forall k, (k < n)%nat ->
       loop_cond deck (Nat.iter k (loop_body deck seq1 seq2) scan_init) = true) /\
    loop_cond deck (Nat.iter n (loop_body deck seq1 seq2) scan_init) = false /\
    score_deck deck seq1 seq2 =
      outputs (Nat.iter n (loop_body deck seq1 seq2) scan_init).
Proof.
  split.
  - intros st. split.
    + apply loop_body_cursor.
    + apply loop_body_measure.
  - assert (Hrun : forall st, exists n : nat,
      (n <= scan_measure deck st)%nat /\
      (forall k, (k < n)%nat ->
         loop_cond deck (Nat.iter k (loop_body deck seq1 seq2) st) = true) /\
      loop_cond deck (Nat.iter n (loop_body deck seq1 seq2) st) = false /\
      scan_loop deck seq1 seq2 st = Nat.iter n (loop_body deck seq1 seq2) st).
    { intros st.
      apply (scan_loop_ind' deck seq1 seq2
        (fun st final => exists n : nat,
           (n <= scan_measure deck st)%nat /\
           (forall k, (k < n)%nat ->
              loop_cond deck (Nat.iter k (loop_body deck seq1 seq2) st) = true) /\
           loop_cond deck (Nat.iter n (loop_body deck seq1 seq2) st) = false /\
           final = Nat.iter n (loop_body deck seq1 seq2) st)).
      - intros st0 Hc. exists O. cbn. repeat split; try lia; auto.
      - intros st0 final Hc (n & Hn & Hbefore & Hafter & Hfinal).
        exists (S n). pose proof (loop_body_measure deck seq1 seq2 st0 Hc).
        repeat split.
        + lia.
        + intros [| k] Hk; [exact Hc |].
          rewrite Nat.iter_succ_r. apply Hbefore. lia.
        + rewrite Nat.iter_succ_r. exact Hafter.
        + rewrite Nat.iter_succ_r. exact Hfinal. }
    destruct (Hrun scan_init) as (n & Hn & Hbefore & Hafter & Hfinal).
    exists n. repeat split; auto.
    + unfold scan_measure, Py.len in Hn. cbn [i scan_init] in Hn. lia.
    + unfold score_deck. rewrite Hfinal. reflexivity.
Qed.

(** Inside the scan range the slice of line 35 is the window of three
    symbols at the cursor. *)
Lemma slice_window deck k :
  0 <= k -> k < Py.len deck - 2 ->
  Py.slice deck k (k + 3) = spec_window deck k.
Proof.
  intros H0 Hk. unfold Py.slice, Py.clamp, spec_window.
  destruct (k <? 0) eqn:E1; [apply Z.ltb_lt in E1; lia |].
  destruct (k + 3 <? 0) eqn:E2; [apply Z.ltb_lt in E2; lia |].
  rewrite !Z.min_l by lia.
  replace (k + 3 - k) with 3 by lia. reflexivity.
Qed.

Lemma spec_scan_sound deck seq1 seq2 k pl score final :
  spec_scan deck seq1 seq2 k pl score final ->
  forall st, 0 <= k -> i st = k -> pile st = pl -> outputs st = score ->
  final = outputs (scan_loop deck seq1 seq2 st).
Proof.
  induction 1 as [k pl score Hk
                 | k pl c1 c2 t1 t2 final Hk Hw _ IH
                 | k pl c1 c2 t1 t2 final Hk Hw1 Hw2 _ IH
                 | k pl c1 c2 t1 t2 final Hk Hw1 Hw2 _ IH];
    intros st H0 Hi Hp Ho; rewrite scan_loop_eq; unfold loop_cond; rewrite Hi.
  - apply Z.ltb_nlt in Hk. rewrite Hk. symmetry. exact Ho.
  - apply Z.ltb_lt in Hk as Hk'. rewrite Hk'.
    apply IH; try lia; unfold loop_body; rewrite Hi, slice_window by lia;
      apply String.eqb_eq in Hw; rewrite Hw; cbn [i pile]; try reflexivity.
    unfold outputs in *. cbn [p1_cards p2_cards p1_tricks p2_tricks].
    injection Ho as -> -> -> ->. rewrite Hp. reflexivity.
  - apply Z.ltb_lt in Hk as Hk'. rewrite Hk'.
    apply IH; try lia; unfold loop_body; rewrite Hi, slice_window by lia;
      apply String.eqb_neq in Hw1; apply String.eqb_eq in Hw2;
      rewrite Hw1, Hw2; cbn [i pile]; try reflexivity.
    unfold outputs in *. cbn [p1_cards p2_cards p1_tricks p2_tricks].
    injection Ho as -> -> -> ->. rewrite Hp. reflexivity.
  - apply Z.ltb_lt in Hk as Hk'. rewrite Hk'.
    apply IH; try lia; unfold loop_body; rewrite Hi, slice_window by lia;
      apply String.eqb_neq in Hw1; apply String.eqb_neq in Hw2;
      rewrite Hw1, Hw2; cbn [i pile]; try reflexivity;
      try (rewrite Hp; reflexivity).
    exact Ho.
Qed.

Lemma spec_scan_complete deck seq1 seq2 st :
  0 <= i st ->
  spec_scan deck seq1 seq2 (i st) (pile st) (outputs st)
    (outputs (scan_loop deck seq1 seq2 st)).
Proof.
  apply (scan_loop_ind' deck seq1 seq2
    (fun st final => 0 <= i st ->
       spec_scan deck seq1 seq2 (i st) (pile st) (outputs st) (outputs final))).
  - intros st0 Hc H0. apply spec_end.
    unfold loop_cond in Hc. apply Z.ltb_nlt in Hc. exact Hc.
  - intros st0 final Hc IH H0.
    unfold loop_cond in Hc. apply Z.ltb_lt in Hc.
    pose proof (slice_window deck (i st0) H0 Hc) as Hs.
    unfold loop_body in IH. rewrite Hs in IH. unfold outputs at 1.
    destruct (spec_window deck (i st0) =? seq1)%string eqn:E1;
      [| destruct (spec_window deck (i st0) =? seq2)%string eqn:E2];
      cbn [i pile] in IH.
    + apply String.eqb_eq in E1.
      apply spec_player1; [exact Hc | exact E1 |]. apply IH. lia.
    + apply String.eqb_neq in E1. apply String.eqb_eq in E2.
      apply spec_player2; [exact Hc | exact E1 | exact E2 |]. apply IH. lia.
    + apply String.eqb_neq in E1. apply String.eqb_neq in E2.
      apply spec_advance; [exact Hc | exact E1 | exact E2 |]. apply IH. lia.
Qed.

(** C1: [score_deck] is exactly the scan the specification describes: started
    with the cursor at 0, the pile at 2 and all counts at 0, the specified
    scan ends in one tuple only, and that tuple is what [score_deck]
    returns. *)
Theorem score_deck_refines_spec (deck seq1 seq2 : string) (final : Z * Z * Z * Z) :
  spec_scan deck seq1 seq2 0 2 (0, 0, 0, 0) final <->
  final = score_deck deck seq1 seq2.
Proof.
  split.
  - intros Hs. unfold score_deck.
    apply (spec_scan_sound deck seq1 seq2 0 2 (0, 0, 0, 0) final Hs);
      reflexivity || lia.
  - intros ->. unfold score_deck.
    apply (spec_scan_complete deck seq1 seq2 scan_init). cbn. lia.
Qed.

(** ** The outcome classifier *)

(** C5: for all integers, non-negative ones in particular, each metric is
    classified by the same rule: winner 1 and draw 0 when player 1 has fewer,
    winner 0 and draw 1 when the counts are equal, both 0 otherwise; so each
    pair of flags is one of (1,0), (0,1), (0,0), the draw flag is 1 exactly
    when the counts are equal, and [calculate_winner 5 5 2 3] is
    (0, 1, 1, 0). *)
Theorem calculate_winner_rule (p1c p2c p1t p2t : Z) :
  (exists cw cd tw td,
     calculate_winner p1c p2c p1t p2t = (cw, cd, tw, td) /\
     metric_rule p1c p2c cw cd /\ metric_rule p1t p2t tw td /\
     ((cw = 1 /\ cd = 0) \/ (cw = 0 /\ cd = 1) \/ (cw = 0 /\ cd = 0)) /\
     ((tw = 1 /\ td = 0) \/ (tw = 0 /\ td = 1) \/ (tw = 0 /\ td = 0)) /\
     (cd = 1 <-> p1c = p2c) /\ (td = 1 <-> p1t = p2t)) /\
  calculate_winner 5 5 2 3 = (0, 1, 1, 0).
Proof.
  split; [| reflexivity].
  unfold calculate_winner, metric_rule.
  destruct (p1c <? p2c) eqn:C1; [| destruct (p1c =? p2c) eqn:C2];
    (destruct (p1t <? p2t) eqn:T1; [| destruct (p1t =? p2t) eqn:T2]);
    do 4 eexists; (split; [reflexivity |]);
    rewrite ?Z.ltb_lt, ?Z.ltb_ge, ?Z.eqb_eq, ?Z.eqb_neq in *; lia.
Qed.

(** ** The pairwise matrix builder *)

Lemma play_pair_flags deck tb seq1 seq2 :
  play_pair deck tb (seq1, seq2) =
  {| p2_wins_cards :=
       Frame.set_at (p2_wins_cards tb) seq1 seq2
         (cards_winner_of (classify deck seq1 seq2));
     p2_wins_tricks :=
       Frame.set_at (p2_wins_tricks tb) seq1 seq2
         (tricks_winner_of (classify deck seq1 seq2));
     draws_cards :=
       Frame.set_at (draws_cards tb) seq1 seq2
         (cards_draw_of (classify deck seq1 seq2));
     draws_tricks :=
       Frame.set_at (draws_tricks tb) seq1 seq2
         (tricks_draw_of (classify deck seq1 seq2)) |}.
Proof.
  unfold play_pair, classify.
  destruct (score_deck deck seq1 seq2) as [[[c1 c2] t1] t2].
  destruct (calculate_winner c1 c2 t1 t2) as [[[cw cd] tw] td].
  reflexivity.
Qed.

Lemma fold_left_agree {A B : Type} (f g : A -> B -> A) (l : list B) :
  (forall a b, f a b = g a b) ->
  forall a, fold_left f l a = fold_left g l a.
Proof.
  intros Hfg. induction l as [| b l IH]; intros a; cbn.
  - reflexivity.
  - rewrite Hfg. apply IH.
Qed.

(** The loop of lines 116-123 followed by the reordering of lines 128-132
    yields the full tables. *)
Lemma filled_tables deck :
  let tb := fold_left (play_pair deck) (list_prod sequences sequences)
              (mkTables (Frame.empty sequences sequences)
                        (Frame.empty sequences sequences)
                        (Frame.empty sequences sequences)
                        (Frame.empty sequences sequences)) in
  Frame.loc_rows (p2_wins_cards tb) (rev sequences) =
    Ok (full_table deck cards_winner_of) /\
  Frame.loc_rows (p2_wins_tricks tb) (rev sequences) =
    Ok (full_table deck tricks_winner_of) /\
  Frame.loc_rows (draws_cards tb) (rev sequences) =
    Ok (full_table deck cards_draw_of) /\
  Frame.loc_rows (draws_tricks tb) (rev sequences) =
    Ok (full_table deck tricks_draw_of).
Proof.
  cbv zeta.
  rewrite (fold_left_agree (play_pair deck)
             (fun tb pair =>
                {| p2_wins_cards :=
                     Frame.set_at (p2_wins_cards tb) (fst pair) (snd pair)
                       (cards_winner_of (classify deck (fst pair) (snd pair)));
                   p2_wins_tricks :=
                     Frame.set_at (p2_wins_tricks tb) (fst pair) (snd pair)
                       (tricks_winner_of (classify deck (fst pair) (snd pair)));
                   draws_cards :=
                     Frame.set_at (draws_cards tb) (fst pair) (snd pair)
                       (cards_draw_of (classify deck (fst pair) (snd pair)));
                   draws_tricks :=
                     Frame.set_at (draws_tricks tb) (fst pair) (snd pair)
                       (tricks_draw_of (classify deck (fst pair) (snd pair))) |}))
    by (intros tb [seq1 seq2]; apply play_pair_flags).
  unfold full_table.
  generalize (classify deck). intros flags.
  repeat split; vm_compute; reflexivity.
Qed.

Lemma bin_digits_value s :
  binary_digits s = true ->
  forall acc, 0 <= acc ->
  exists n, bin_digits s acc = Some n /\
            acc * 2 ^ Py.len s <= n < (acc + 1) * 2 ^ Py.len s.
Proof.
  induction s as [| c rest IH]; intros Hs acc Hacc.
  - exists acc. cbn. split; [reflexivity | lia].
  - cbn [binary_digits] in Hs. apply andb_true_iff in Hs as [Hc Hrest].
    assert (Hlen : Py.len (String c rest) = Z.succ (Py.len rest))
      by (unfold Py.len; cbn [String.length]; lia).
    rewrite Hlen, Z.pow_succ_r by (unfold Py.len; lia).
    assert (Hpos : 0 < 2 ^ Py.len rest)
      by (apply Z.pow_pos_nonneg; unfold Py.len; lia).
    cbn [bin_digits].
    destruct (c =? "0")%char.
    + destruct (IH Hrest (2 * acc)) as (n & Hn & Hlo & Hhi); [lia |].
      exists n. split; [exact Hn | nia].
    + cbn [orb] in Hc. rewrite Hc.
      destruct (IH Hrest (2 * acc + 1)) as (n & Hn & Hlo & Hhi); [lia |].
      exists n. split; [exact Hn | nia].
Qed.

(** Line 125 names every non-empty deck of binary digits that is short
    enough for its value to be printed. *)
Lemma deck_name_exists {H : Host} deck :
  binary_deck deck = true ->
  int_max_str_digits = 0 \/ 2 ^ Py.len deck <= 10 ^ int_max_str_digits ->
  exists n name, int_base2 deck = Ok n /\ str n = Ok name.
Proof.
  unfold binary_deck. intros Hd Hlim.
  apply andb_true_iff in Hd as [Hne Hbin].
  destruct (bin_digits_value deck Hbin 0) as (n & Hn & Hlo & Hhi); [lia |].
  exists n. unfold int_base2, str. rewrite Hn.
  destruct deck as [| c rest]; [discriminate |].
  destruct Hlim as [-> | Hlim].
  - cbn [Z.ltb Z.compare andb]. eauto.
  - replace (10 ^ int_max_str_digits <=? Z.abs n) with false.
    + rewrite andb_false_r. eauto.
    + symmetry. apply Z.leb_gt. lia.
Qed.

Lemma full_table_cell deck flag r c :
  (r < 8)%nat -> (c < 8)%nat ->
  nth c (nth r (Frame.values (full_table deck flag)) []) None =
  Some (flag (classify deck (nth (7 - r) sequences "") (nth c sequences ""))).
Proof.
  intros Hr Hc.
  do 8 (destruct r as [| r]; [do 8 (destruct c as [| c]; [reflexivity |]); lia |]).
  lia.
Qed.

Lemma full_table_layout deck flag :
  Frame.index (full_table deck flag) = rev sequences /\
  nth 0 (Frame.index (full_table deck flag)) "" = "111" /\
  Frame.columns (full_table deck flag) = sequences /\
  length (Frame.values (full_table deck flag)) = 8%nat /\
  Forall (fun row => length row = 8%nat /\ Forall (fun c => c <> None) row)
         (Frame.values (full_table deck flag)).
Proof.
  repeat split; cbn; repeat constructor; discriminate.
Qed.

(** The empty deck has no name: line 125 raises before anything is
    returned, in either mode. *)
Lemma play_one_deck_empty_deck :
  @play_one_deck (table_host [] []) "" "data" true tt = Raise ValueError /\
  @play_one_deck (table_host [] []) "" "data" false tt = Raise ValueError.
Proof.
  split; vm_compute; reflexivity.
Qed.

(** C8, amended: for every non-empty deck of binary digits whose value the
    host can print, [play_one_deck] returns the four full tables (in batched
    mode always; otherwise whenever the four writes succeed, and it returns
    nothing else).  Each table has 8 rows and 8 columns, its rows labelled
    from "111" at row 0 down to "000" and its columns from "000" to "111",
    and each of its 64 cells holds the flag that [calculate_winner] gives on
    the counts of [score_deck] for the row's [seq1] and the column's
    [seq2]. *)
Theorem play_one_deck_full_tables {H : Host} (deck data : string) (w : world) :
  binary_deck deck = true ->
  int_max_str_digits = 0 \/ 2 ^ Py.len deck <= 10 ^ int_max_str_digits ->
  play_one_deck deck data true w = Ok (full_tables deck, w) /\
  (forall tb w',
     play_one_deck deck data false w = Ok (tb, w') -> tb = full_tables deck) /\
  ((forall path arr w0, exists w1, np_save path arr w0 = Ok w1) ->
   exists w', play_one_deck deck data false w = Ok (full_tables deck, w')) /\
  Forall (fun m =>
            Frame.index m = rev sequences /\
            nth 0 (Frame.index m) "" = "111" /\
            Frame.columns m = sequences /\
            length (Frame.values m) = 8%nat /\
            Forall (fun row => length row = 8%nat /\
                               Forall (fun c => c <> None) row)
                   (Frame.values m))
         [p2_wins_cards (full_tables deck); p2_wins_tricks (full_tables deck);
          draws_cards (full_tables deck); draws_tricks (full_tables deck)] /\
  (forall r c, (r < 8)%nat -> (c < 8)%nat ->
     let seq1 := nth (7 - r) sequences "" in
     let seq2 := nth c sequences "" in
     let cell_of m := nth c (nth r (Frame.values m) []) None in
     cell_of (p2_wins_cards (full_tables deck)) =
       Some (cards_winner_of (classify deck seq1 seq2)) /\
     cell_of (p2_wins_tricks (full_tables deck)) =
       Some (tricks_winner_of (classify deck seq1 seq2)) /\
     cell_of (draws_cards (full_tables deck)) =
       Some (cards_draw_of (classify deck seq1 seq2)) /\
     cell_of (draws_tricks (full_tables deck)) =
       Some (tricks_draw_of (classify deck seq1 seq2))).
Proof.
  intros Hdeck Hlim.
  destruct (deck_name_exists deck Hdeck Hlim) as (n & name & Hn & Hname).
  destruct (filled_tables deck) as (E1 & E2 & E3 & E4).
  assert (Hrun : forall batched,
    play_one_deck deck data batched w =
    if batched then Ok (full_tables deck, w)
    else
      w1 <- np_save (data ++ "/cards/" ++ name ++ ".npy")
              (Frame.values (full_table deck cards_winner_of)) w ;;
      w2 <- np_save (data ++ "/tricks/" ++ name ++ ".npy")
              (Frame.values (full_table deck tricks_winner_of)) w1 ;;
      w3 <- np_save (data ++ "/cards_ties/" ++ name ++ ".npy")
              (Frame.values (full_table deck cards_draw_of)) w2 ;;
      w4 <- np_save (data ++ "/tricks_ties/" ++ name ++ ".npy")
              (Frame.values (full_table deck tricks_draw_of)) w3 ;;
      Ok (full_tables deck, w4)).
  { intros batched. unfold play_one_deck. cbv zeta.
    rewrite Hn. cbn [bind]. rewrite Hname. cbn [bind].
    rewrite E1. cbn [bind]. rewrite E2. cbn [bind].
    rewrite E3. cbn [bind]. rewrite E4. cbn [bind].
    reflexivity. }
  split; [| split; [| split; [| split]]].
  - apply (Hrun true).
  - intros tb w'. rewrite (Hrun false).
    destruct (np_save _ _ w) as [w1 |]; cbn [bind]; [| discriminate].
    destruct (np_save _ _ w1) as [w2 |]; cbn [bind]; [| discriminate].
    destruct (np_save _ _ w2) as [w3 |]; cbn [bind]; [| discriminate].
    destruct (np_save _ _ w3) as [w4 |]; cbn [bind]; [| discriminate].
    intros [= <- _]. reflexivity.
  - intros Hsave. rewrite (Hrun false).
    destruct (Hsave (data ++ "/cards/" ++ name ++ ".npy")
                (Frame.values (full_table deck cards_winner_of)) w) as [w1 ->].
    cbn [bind].
    destruct (Hsave (data ++ "/tricks/" ++ name ++ ".npy")
                (Frame.values (full_table deck tricks_winner_of)) w1) as [w2 ->].
    cbn [bind].
    destruct (Hsave (data ++ "/cards_ties/" ++ name ++ ".npy")
                (Frame.values (full_table deck cards_draw_of)) w2) as [w3 ->].
    cbn [bind].
    destruct (Hsave (data ++ "/tricks_ties/" ++ name ++ ".npy")
                (Frame.values (full_table deck tricks_draw_of)) w3) as [w4 ->].
    cbn [bind]. eauto.
  - repeat (apply Forall_cons; [apply full_table_layout |]). apply Forall_nil.
  - intros r c Hr Hc. cbv zeta. unfold full_tables.
    cbn [p2_wins_cards p2_wins_tricks draws_cards draws_tricks].
    rewrite !full_table_cell by assumption. auto.
Qed.

Lemma play_one_deck_full_tables_witness :
  @play_one_deck (table_host [] []) "0101010101" "data" true tt =
  Ok (full_tables "0101010101", tt).
Proof.
  apply (@play_one_deck_full_tables (table_host [] []) "0101010101" "data" tt).
  - reflexivity.
  - right. vm_compute. discriminate.
Defined.

(** ** The aggregator *)

Lemma map2_add_nth (a b : list Z) c :
  length a = length b ->
  nth c (map2 Z.add a b) 0 = nth c a 0 + nth c b 0.
Proof.
  revert b c. induction a as [| x a IH]; intros [| y b] c Hlen;
    try discriminate; destruct c; cbn; try reflexivity.
  apply IH. cbn in Hlen. congruence.
Qed.

Lemma matrix_add_nth (A B : int_array) r c :
  shape A = shape B ->
  nth c (nth r (map2 (map2 Z.add) A B) []) 0 =
  nth c (nth r A []) 0 + nth c (nth r B []) 0.
Proof.
  revert B r. induction A as [| a A IH]; intros [| b B] r Hs;
    try discriminate; destruct r; cbn; try (destruct c; reflexivity);
    cbn in Hs; injection Hs as Hrow Hrest.
  - apply map2_add_nth, Hrow.
  - apply IH, Hrest.
Qed.

Lemma map2_add_length (a b : list Z) :
  length a = length b -> length (map2 Z.add a b) = length a.
Proof.
  revert b. induction a as [| x a IH]; intros [| y b] Hlen;
    try discriminate; cbn; [reflexivity |].
  f_equal. apply IH. cbn in Hlen. congruence.
Qed.

Lemma matrix_add_shape (A B : int_array) :
  shape A = shape B -> shape (map2 (map2 Z.add) A B) = shape A.
Proof.
  revert B. induction A as [| a A IH]; intros [| b B] Hs;
    try discriminate; cbn; [reflexivity |].
  cbn in Hs. injection Hs as Hrow Hrest.
  f_equal; [apply map2_add_length, Hrow | apply IH, Hrest].
Qed.

(** *** Division of an integer by one, in binary64 *)











(** * Further properties of the code *)

(** ** The scoring kernel *)

Lemma loop_body_swap deck seq1 seq2 st :
  seq1 <> seq2 ->
  loop_body deck seq2 seq1 (swap_players st) =
  swap_players (loop_body deck seq1 seq2 st).
Proof.
  intros Hne. unfold loop_body, swap_players.
  cbn [p1_cards p2_cards pile p1_tricks p2_tricks i].
  destruct (_ =? seq1)%string eqn:E1; destruct (_ =? seq2)%string eqn:E2;
    cbn [p1_cards p2_cards pile p1_tricks p2_tricks i]; try reflexivity.
  apply String.eqb_eq in E1, E2. congruence.
Qed.

Lemma scan_loop_swap deck seq1 seq2 :
  seq1 <> seq2 ->
  forall st,
    scan_loop deck seq2 seq1 (swap_players st) =
    swap_players (scan_loop deck seq1 seq2 st).
Proof.
  intros Hne st.
  apply (scan_loop_ind' deck seq1 seq2
    (fun st final => scan_loop deck seq2 seq1 (swap_players st) = swap_players final)).
  - intros st0 Hc. rewrite scan_loop_eq.
    change (loop_cond deck (swap_players st0)) with (loop_cond deck st0).
    rewrite Hc. reflexivity.
  - intros st0 final Hc IH. rewrite scan_loop_eq.
    change (loop_cond deck (swap_players st0)) with (loop_cond deck st0).
    rewrite Hc, loop_body_swap by exact Hne. exact IH.
Qed.

(** X1: the kernel treats the two players alike: when they choose different
    sequences, exchanging the sequences exchanges the cards and the tricks
    returned. *)
Theorem score_deck_exchange (deck seq1 seq2 : string) :
  seq1 <> seq2 ->
  score_deck deck seq2 seq1 =
  let '(c1, c2, t1, t2) := score_deck deck seq1 seq2 in (c2, c1, t2, t1).
Proof.
  intros Hne. unfold score_deck.
  change scan_init with (swap_players scan_init) at 1.
  rewrite scan_loop_swap by exact Hne. reflexivity.
Qed.

Lemma score_deck_exchange_witness :
  score_deck "0101010101" "101" "010" =
  let '(c1, c2, t1, t2) := score_deck "0101010101" "010" "101" in
  (c2, c1, t2, t1).
Proof.
  apply (score_deck_exchange "0101010101" "010" "101"). discriminate.
Defined.

(** Within the scan range the window compared has exactly three symbols. *)
Lemma substring_length n m s :
  (n + m <= String.length s)%nat -> String.length (substring n m s) = m.
Proof.
  revert n m. induction s as [| c s IH]; intros [| n] [| m] Hs;
    cbn in *; try reflexivity; try lia.
  - f_equal. apply IH. lia.
  - apply IH. lia.
  - apply IH. lia.
Qed.

Lemma window_length deck k :
  0 <= k -> k < Py.len deck - 2 ->
  String.length (Py.slice deck k (k + 3)) = 3%nat.
Proof.
  intros H0 Hk. rewrite slice_window by assumption.
  unfold spec_window. apply substring_length.
  unfold Py.len in Hk. lia.
Qed.

(** A player whose sequence is at no cursor of the scan range gets
    nothing. *)
Lemma absent_player1 deck seq1 seq2 :
  (forall k, 0 <= k < Py.len deck - 2 -> Py.slice deck k (k + 3) <> seq1) ->
  let st := scan_loop deck seq1 seq2 scan_init in
  p1_cards st = 0 /\ p1_tricks st = 0.
Proof.
  intros Habs. cbv zeta.
  destruct (scan_loop_invariant deck seq1 seq2
              (fun st => (p1_cards st = 0 /\ p1_tricks st = 0) /\ 0 <= i st))
    with (st := scan_init) as [[Hz _] _].
  - intros st [[Hc Ht] H0] Hg. unfold loop_cond in Hg. apply Z.ltb_lt in Hg.
    unfold loop_body.
    destruct (_ =? seq1)%string eqn:E1.
    + apply String.eqb_eq in E1. exfalso. apply (Habs (i st)); [lia | exact E1].
    + destruct (_ =? seq2)%string;
        cbn [p1_cards p2_cards pile p1_tricks p2_tricks i];
        (split; [split; assumption | lia]).
  - cbn. repeat split; lia.
  - exact Hz.
Qed.

Lemma absent_player2 deck seq1 seq2 :
  (forall k, 0 <= k < Py.len deck - 2 -> Py.slice deck k (k + 3) <> seq2) ->
  let st := scan_loop deck seq1 seq2 scan_init in
  p2_cards st = 0 /\ p2_tricks st = 0.
Proof.
  intros Habs. cbv zeta.
  destruct (scan_loop_invariant deck seq1 seq2
              (fun st => (p2_cards st = 0 /\ p2_tricks st = 0) /\ 0 <= i st))
    with (st := scan_init) as [[Hz _] _].
  - intros st [[Hc Ht] H0] Hg. unfold loop_cond in Hg. apply Z.ltb_lt in Hg.
    unfold loop_body.
    destruct (_ =? seq1)%string eqn:E1;
      [cbn [p1_cards p2_cards pile p1_tricks p2_tricks i];
       split; [split; assumption | lia] |].
    destruct (_ =? seq2)%string eqn:E2.
    + apply String.eqb_eq in E2. exfalso. apply (Habs (i st)); [lia | exact E2].
    + cbn [p1_cards p2_cards pile p1_tricks p2_tricks i].
      split; [split; assumption | lia].
  - cbn. repeat split; lia.
  - exact Hz.
Qed.

(** X2: the kernel does not check the length of a sequence: a player whose
    sequence has not exactly three symbols never matches a window and gets
    no card and no trick, whatever the deck. *)
Theorem score_deck_wrong_length (deck seq1 seq2 : string) :
  let '(c1, c2, t1, t2) := score_deck deck seq1 seq2 in
  (String.length seq1 <> 3%nat -> c1 = 0 /\ t1 = 0) /\
  (String.length seq2 <> 3%nat -> c2 = 0 /\ t2 = 0).
Proof.
  unfold score_deck, outputs. split; intros Hlen.
  - apply absent_player1. intros k Hk E. apply Hlen. rewrite <- E.
    apply window_length; lia.
  - apply absent_player2. intros k Hk E. apply Hlen. rewrite <- E.
    apply window_length; lia.
Qed.

Lemma loop_body_tricks deck seq1 seq2 st :
  p1_tricks st <= p1_tricks (loop_body deck seq1 seq2 st) /\
  p2_tricks st <= p2_tricks (loop_body deck seq1 seq2 st).
Proof.
  unfold loop_body.
  destruct (_ =? seq1)%string; [| destruct (_ =? seq2)%string];
    cbn [p1_tricks p2_tricks]; lia.
Qed.

Lemma scan_loop_tricks deck seq1 seq2 st :
  p1_tricks st <= p1_tricks (scan_loop deck seq1 seq2 st) /\
  p2_tricks st <= p2_tricks (scan_loop deck seq1 seq2 st).
Proof.
  apply (scan_loop_ind' deck seq1 seq2
    (fun st final => p1_tricks st <= p1_tricks final /\
                     p2_tricks st <= p2_tricks final)).
  - intros st0 _. lia.
  - intros st0 final _ IH.
    pose proof (loop_body_tricks deck seq1 seq2 st0). lia.
Qed.

(** A scan that awards no trick has compared every window from its cursor
    to the end of the range, and none was one of the sequences. *)
Lemma scan_loop_no_trick deck seq1 seq2 st :
  p1_tricks (scan_loop deck seq1 seq2 st) = p1_tricks st ->
  p2_tricks (scan_loop deck seq1 seq2 st) = p2_tricks st ->
  forall k, i st <= k < Py.len deck - 2 ->
    Py.slice deck k (k + 3) <> seq1 /\ Py.slice deck k (k + 3) <> seq2.
Proof.
  apply (scan_loop_ind' deck seq1 seq2
    (fun st final =>
       (p1_tricks st <= p1_tricks final /\ p2_tricks st <= p2_tricks final) /\
       (p1_tricks final = p1_tricks st -> p2_tricks final = p2_tricks st ->
        forall k, i st <= k < Py.len deck - 2 ->
          Py.slice deck k (k + 3) <> seq1 /\ Py.slice deck k (k + 3) <> seq2))).
  - intros st0 Hc. split; [lia |].
    intros _ _ k Hk. unfold loop_cond in Hc. apply Z.ltb_ge in Hc. lia.
  - intros st0 final Hc [Hmono IH].
    pose proof (loop_body_tricks deck seq1 seq2 st0) as Hstep.
    split; [lia |]. intros H1 H2 k Hk.
    revert IH Hmono Hstep. unfold loop_body.
    destruct (_ =? seq1)%string eqn:E1; [| destruct (_ =? seq2)%string eqn:E2];
      cbn [p1_tricks p2_tricks i]; intros IH Hmono Hstep; try lia.
    apply String.eqb_neq in E1, E2.
    destruct (Z.eq_dec k (i st0)) as [-> | Hk'].
    + split; assumption.
    + apply IH; try assumption. lia.
Qed.

(** X3: no trick is awarded exactly when neither sequence stands at any
    cursor of the deck; and a player whose own sequence stands nowhere gets
    no card and no trick. *)
Theorem score_deck_no_occurrence (deck seq1 seq2 : string) :
  let occurs seq :=
    exists k, 0 <= k < Py.len deck - 2 /\ Py.slice deck k (k + 3) = seq in
  let '(c1, c2, t1, t2) := score_deck deck seq1 seq2 in
  (t1 = 0 /\ t2 = 0 <-> ~ occurs seq1 /\ ~ occurs seq2) /\
  (~ occurs seq1 -> c1 = 0 /\ t1 = 0) /\
  (~ occurs seq2 -> c2 = 0 /\ t2 = 0).
Proof.
  cbv zeta. unfold score_deck, outputs.
  assert (A1 : ~ (exists k, 0 <= k < Py.len deck - 2 /\
                            Py.slice deck k (k + 3) = seq1) ->
               p1_cards (scan_loop deck seq1 seq2 scan_init) = 0 /\
               p1_tricks (scan_loop deck seq1 seq2 scan_init) = 0).
  { intros Hno. apply absent_player1. intros k Hk E. apply Hno. eauto. }
  assert (A2 : ~ (exists k, 0 <= k < Py.len deck - 2 /\
                            Py.slice deck k (k + 3) = seq2) ->
               p2_cards (scan_loop deck seq1 seq2 scan_init) = 0 /\
               p2_tricks (scan_loop deck seq1 seq2 scan_init) = 0).
  { intros Hno. apply absent_player2. intros k Hk E. apply Hno. eauto. }
  split; [| split; assumption].
  split.
  - intros [H1 H2].
    pose proof (scan_loop_no_trick deck seq1 seq2 scan_init H1 H2) as Hno.
    cbn [i scan_init] in Hno.
    split; intros (k & Hk & E); destruct (Hno k Hk); contradiction.
  - intros [N1 N2]. split; [apply A1, N1 | apply A2, N2].
Qed.

(** ** Equal sequences *)

(** With one sequence for both players, the loop leaves player 2 nothing
    and gives player 1 every window it meets that equals the sequence. *)
Lemma scan_loop_same deck s st :
  exists n : nat,
    (forall k, (k < n)%nat ->
       loop_cond deck (Nat.iter k (loop_body deck s s) st) = true) /\
    loop_cond deck (Nat.iter n (loop_body deck s s) st) = false /\
    p1_cards (scan_loop deck s s st) = p1_cards st + matched_cards deck s n st /\
    p2_cards (scan_loop deck s s st) = p2_cards st /\
    p1_tricks (scan_loop deck s s st) = p1_tricks st + matched_tricks deck s n st /\
    p2_tricks (scan_loop deck s s st) = p2_tricks st.
Proof.
  apply (scan_loop_ind' deck s s
    (fun st final => exists n : nat,
       (forall k, (k < n)%nat ->
          loop_cond deck (Nat.iter k (loop_body deck s s) st) = true) /\
       loop_cond deck (Nat.iter n (loop_body deck s s) st) = false /\
       p1_cards final = p1_cards st + matched_cards deck s n st /\
       p2_cards final = p2_cards st /\
       p1_tricks final = p1_tricks st + matched_tricks deck s n st /\
       p2_tricks final = p2_tricks st)).
  - intros st0 Hc. exists O. cbn [Nat.iter nat_rect matched_cards matched_tricks].
    repeat split; try lia; auto.
  - intros st0 final Hc (n & Hbefore & Hafter & C1 & C2 & T1 & T2).
    exists (S n). cbn [matched_cards matched_tricks].
    split; [| split].
    + intros [| k] Hk; [exact Hc |].
      rewrite Nat.iter_succ_r. apply Hbefore. lia.
    + rewrite Nat.iter_succ_r. exact Hafter.
    + assert (B : p1_cards (loop_body deck s s st0) =
                    p1_cards st0 +
                    (if (Py.slice deck (i st0) (i st0 + 3) =? s)%string
                     then pile st0 + 1 else 0) /\
                  p2_cards (loop_body deck s s st0) = p2_cards st0 /\
                  p1_tricks (loop_body deck s s st0) =
                    p1_tricks st0 +
                    (if (Py.slice deck (i st0) (i st0 + 3) =? s)%string
                     then 1 else 0) /\
                  p2_tricks (loop_body deck s s st0) = p2_tricks st0).
      { unfold loop_body. destruct (_ =? s)%string;
          cbn [p1_cards p2_cards p1_tricks p2_tricks]; lia. }
      destruct B as (B1 & B2 & B3 & B4).
      rewrite C1, C2, T1, T2, B1, B2, B3, B4.
      destruct (_ =? s)%string; lia.
Qed.

(** C4: when both players choose the same sequence, every window equal to
    it is credited to player 1 and none to player 2: no pass of the loop
    changes player 2's counts and a pass over such a window gives player 1
    the whole pile and a trick; what [score_deck] returns for player 1 is
    the tricks and the cards of all such windows met by the loop, and for
    player 2 it is 0 cards and 0 tricks; so a deck in which the sequence
    stands gives player 1 at least one trick and three cards. *)
Theorem score_deck_same_sequence (deck s : string) :
  (forall st,
     p2_cards (loop_body deck s s st) = p2_cards st /\
     p2_tricks (loop_body deck s s st) = p2_tricks st /\
     (Py.slice deck (i st) (i st + 3) = s ->
      p1_cards (loop_body deck s s st) = p1_cards st + (pile st + 1) /\
      p1_tricks (loop_body deck s s st) = p1_tricks st + 1)) /\
  (exists c t, score_deck deck s s = (c, 0, t, 0)) /\
  (exists n : nat,
     (forall k, (k < n)%nat ->
        loop_cond deck (Nat.iter k (loop_body deck s s) scan_init) = true) /\
     loop_cond deck (Nat.iter n (loop_body deck s s) scan_init) = false /\
     score_deck deck s s =
       (matched_cards deck s n scan_init, 0,
        matched_tricks deck s n scan_init, 0)) /\
  ((exists k, 0 <= k < Py.len deck - 2 /\ Py.slice deck k (k + 3) = s) ->
   exists c t, score_deck deck s s = (c, 0, t, 0) /\ 3 <= c /\ 1 <= t).
Proof.
  destruct (scan_loop_same deck s scan_init)
    as (n & Hbefore & Hafter & C1 & C2 & T1 & T2).
  change (p1_cards scan_init) with 0 in C1.
  change (p2_cards scan_init) with 0 in C2.
  change (p1_tricks scan_init) with 0 in T1.
  change (p2_tricks scan_init) with 0 in T2.
  assert (Hres : score_deck deck s s =
                 (matched_cards deck s n scan_init, 0,
                  matched_tricks deck s n scan_init, 0)).
  { unfold score_deck, outputs. rewrite C1, C2, T1, T2. reflexivity. }
  split; [| split; [| split]].
  - intros st. unfold loop_body.
    destruct (_ =? s)%string eqn:E; cbn [p1_cards p2_cards p1_tricks p2_tricks].
    + auto.
    + split; [reflexivity |]. split; [reflexivity |].
      intros Hw. apply String.eqb_neq in E. contradiction.
  - eauto.
  - exists n. auto.
  - intros (k & Hk & Hw). do 2 eexists. split; [exact Hres |].
    pose proof (inv_t1 _ _ (scan_inv_final deck s s)) as Hnonneg.
    pose proof (inv_worth1 _ _ (scan_inv_final deck s s)) as Hworth.
    rewrite T1 in Hnonneg, Hworth. rewrite C1 in Hworth.
    assert (Ht : matched_tricks deck s n scan_init <> 0).
    { intros Hz.
      assert (HA : p1_tricks (scan_loop deck s s scan_init) = p1_tricks scan_init)
        by (rewrite T1, Hz; reflexivity).
      assert (HB : p2_tricks (scan_loop deck s s scan_init) = p2_tricks scan_init)
        by (rewrite T2; reflexivity).
      destruct (scan_loop_no_trick deck s s scan_init HA HB k) as [Hno _];
        [cbn [i scan_init]; lia | contradiction]. }
    lia.
Qed.

Lemma substring_app n m s more :
  (n + m <= String.length s)%nat ->
  substring n m (s ++ more) = substring n m s.
Proof.
  revert n m. induction s as [| c s IH]; intros [| n] [| m] Hs;
    cbn in *; try reflexivity; try lia.
  - destruct more; reflexivity.
  - f_equal. apply IH. lia.
  - apply IH. lia.
  - apply IH. lia.
Qed.

Lemma len_app s more : Py.len (s ++ more) = Py.len s + Py.len more.
Proof.
  unfold Py.len. induction s as [| c s IH]; cbn [append String.length].
  - lia.
  - lia.
Qed.

Lemma len_nonneg s : 0 <= Py.len s.
Proof. unfold Py.len. lia. Qed.

(** On the cursors of the shorter deck's range, a deck and its extension
    show the same window. *)
Lemma slice_app deck more k :
  0 <= k -> k < Py.len deck - 2 ->
  Py.slice (deck ++ more) k (k + 3) = Py.slice deck k (k + 3).
Proof.
  intros H0 Hk. pose proof (len_nonneg more).
  rewrite !slice_window by (rewrite ?len_app; lia).
  unfold spec_window. apply substring_app. unfold Py.len in Hk. lia.
Qed.

(** The scan of an extended deck passes through the state in which the scan
    of the deck itself ends. *)
Lemma scan_loop_app deck more seq1 seq2 st :
  0 <= i st ->
  scan_loop (deck ++ more) seq1 seq2 st =
  scan_loop (deck ++ more) seq1 seq2 (scan_loop deck seq1 seq2 st).
Proof.
  apply (scan_loop_ind' deck seq1 seq2
    (fun st final => 0 <= i st ->
       scan_loop (deck ++ more) seq1 seq2 st =
       scan_loop (deck ++ more) seq1 seq2 final)).
  - reflexivity.
  - intros st0 final Hc IH H0.
    unfold loop_cond in Hc. apply Z.ltb_lt in Hc as Hc'.
    pose proof (len_nonneg more).
    rewrite (scan_loop_eq (deck ++ more) seq1 seq2 st0).
    replace (loop_cond (deck ++ more) st0) with true
      by (symmetry; unfold loop_cond; apply Z.ltb_lt; rewrite len_app; lia).
    replace (loop_body (deck ++ more) seq1 seq2 st0)
      with (loop_body deck seq1 seq2 st0)
      by (unfold loop_body; rewrite slice_app by assumption; reflexivity).
    apply IH.
    destruct (loop_body_cursor deck seq1 seq2 st0) as [E | E]; rewrite E; lia.
Qed.

(** From a state with a pile of at least 2, the scan only adds to the four
    counts. *)
Lemma scan_loop_grows deck seq1 seq2 st :
  2 <= pile st ->
  p1_cards st <= p1_cards (scan_loop deck seq1 seq2 st) /\
  p2_cards st <= p2_cards (scan_loop deck seq1 seq2 st) /\
  p1_tricks st <= p1_tricks (scan_loop deck seq1 seq2 st) /\
  p2_tricks st <= p2_tricks (scan_loop deck seq1 seq2 st).
Proof.
  apply (scan_loop_ind' deck seq1 seq2
    (fun st final => 2 <= pile st ->
       p1_cards st <= p1_cards final /\ p2_cards st <= p2_cards final /\
       p1_tricks st <= p1_tricks final /\ p2_tricks st <= p2_tricks final)).
  - intros st0 _ _. lia.
  - intros st0 final _ IH Hp. revert IH. unfold loop_body.
    destruct (_ =? seq1)%string; [| destruct (_ =? seq2)%string];
      cbn [p1_cards p2_cards pile p1_tricks p2_tricks]; lia.
Qed.

(** X4: cards added at the end of a deck take nothing away: each of the four
    counts on the extended deck is at least the count on the deck. *)
Theorem score_deck_append (deck more seq1 seq2 : string) :
  let '(c1, c2, t1, t2) := score_deck deck seq1 seq2 in
  let '(c1', c2', t1', t2') := score_deck (deck ++ more) seq1 seq2 in
  c1 <= c1' /\ c2 <= c2' /\ t1 <= t1' /\ t2 <= t2'.
Proof.
  unfold score_deck, outputs.
  rewrite (scan_loop_app deck more seq1 seq2 scan_init) by (cbn; lia).
  apply scan_loop_grows.
  apply (inv_pile deck _ (scan_inv_final deck seq1 seq2)).
Qed.

(** ** The outcome classifier *)

Lemma calculate_winner_swap (p1c p2c p1t p2t : Z) :
  let '(cw, cd, tw, td) := calculate_winner p1c p2c p1t p2t in
  let '(cw', cd', tw', td') := calculate_winner p2c p1c p2t p1t in
  cd' = cd /\ td' = td /\ cw + cw' + cd = 1 /\ tw + tw' + td = 1.
Proof.
  unfold calculate_winner.
  destruct (p1c <? p2c) eqn:A1; destruct (p1c =? p2c) eqn:A2;
    destruct (p2c <? p1c) eqn:A3; destruct (p2c =? p1c) eqn:A4;
    rewrite ?Z.ltb_lt, ?Z.ltb_ge, ?Z.eqb_eq, ?Z.eqb_neq in *; try lia;
    (destruct (p1t <? p2t) eqn:B1; destruct (p1t =? p2t) eqn:B2;
     destruct (p2t <? p1t) eqn:B3; destruct (p2t =? p1t) eqn:B4;
     rewrite ?Z.ltb_lt, ?Z.ltb_ge, ?Z.eqb_eq, ?Z.eqb_neq in *; try lia;
     cbv zeta iota beta; repeat split; reflexivity).
Qed.

(** X5: exchanging the two players leaves both draw flags as they are, and
    for each metric exactly one of three holds: player 2 wins, player 2 wins
    after the exchange, or the metric is drawn. *)
Theorem calculate_winner_exchange (p1c p2c p1t p2t : Z) :
  let '(cw, cd, tw, td) := calculate_winner p1c p2c p1t p2t in
  let '(cw', cd', tw', td') := calculate_winner p2c p1c p2t p1t in
  cd' = cd /\ td' = td /\ cw + cw' + cd = 1 /\ tw + tw' + td = 1.
Proof.
  apply calculate_winner_swap.
Qed.

(** ** The pairwise matrix builder *)

(** Whatever the deck and the mode, tables that [play_one_deck] returns are
    the full tables of the deck. *)
Lemma play_one_deck_returns {H : Host} deck data batched w tb w' :
  play_one_deck deck data batched w = Ok (tb, w') -> tb = full_tables deck.
Proof.
  destruct (filled_tables deck) as (E1 & E2 & E3 & E4).
  unfold play_one_deck. cbv zeta.
  destruct (int_base2 deck) as [n |]; cbn [bind]; [| discriminate].
  destruct (str n) as [name |]; cbn [bind]; [| discriminate].
  rewrite E1. cbn [bind]. rewrite E2. cbn [bind].
  rewrite E3. cbn [bind]. rewrite E4. cbn [bind].
  destruct batched.
  - intros [= <- _]. reflexivity.
  - destruct (np_save _ _ w) as [w1 |]; cbn [bind]; [| discriminate].
    destruct (np_save _ _ w1) as [w2 |]; cbn [bind]; [| discriminate].
    destruct (np_save _ _ w2) as [w3 |]; cbn [bind]; [| discriminate].
    destruct (np_save _ _ w3) as [w4 |]; cbn [bind]; [| discriminate].
    intros [= <- _]. reflexivity.
Qed.

Lemma full_table_at deck flag seq1 seq2 :
  In seq1 sequences -> In seq2 sequences ->
  cell_at (full_table deck flag) seq1 seq2 = Some (flag (classify deck seq1 seq2)).
Proof.
  intros H1 H2. unfold sequences in H1, H2. cbn [In] in H1, H2.
  repeat (destruct H1 as [<- | H1]); try contradiction;
    repeat (destruct H2 as [<- | H2]); try contradiction; reflexivity.
Qed.

(** Against itself a sequence leaves player 2 nothing: no win, and a draw on
    cards exactly when on tricks. *)
Lemma classify_same deck s :
  exists d, classify deck s s = (0, d, 0, d) /\ (d = 0 \/ d = 1).
Proof.
  unfold classify, score_deck, outputs.
  destruct (scan_loop_invariant deck s s
              (fun st => p2_cards st = 0 /\ p2_tricks st = 0))
    with (st := scan_init) as [[Hc Ht] _].
  - intros st [Hc Ht] _. unfold loop_body.
    destruct (_ =? s)%string; cbn [p2_cards p2_tricks]; auto.
  - split; reflexivity.
  - destruct (scan_inv_final deck s s). rewrite Hc, Ht.
    unfold calculate_winner.
    destruct (p1_cards _ <? 0) eqn:A; [apply Z.ltb_lt in A; lia |].
    destruct (p1_tricks _ <? 0) eqn:B; [apply Z.ltb_lt in B; lia |].
    destruct (p1_cards _ =? 0) eqn:C; destruct (p1_tricks _ =? 0) eqn:D;
      rewrite ?Z.eqb_eq, ?Z.eqb_neq in *; cbv zeta iota beta;
      try (exfalso; lia); eauto.
Qed.

Lemma classify_swap deck seq1 seq2 :
  seq1 <> seq2 ->
  let '(cw, cd, tw, td) := classify deck seq1 seq2 in
  let '(cw', cd', tw', td') := classify deck seq2 seq1 in
  cd' = cd /\ td' = td /\ cw + cw' + cd = 1 /\ tw + tw' + td = 1.
Proof.
  intros Hne. unfold classify, score_deck.
  change scan_init with (swap_players scan_init) at 2.
  rewrite scan_loop_swap by exact Hne.
  unfold outputs, swap_players. cbn [p1_cards p2_cards p1_tricks p2_tricks].
  apply calculate_winner_swap.
Qed.

(** X6: in the tables [play_one_deck] returns, no sequence beats itself: on
    the cell of a sequence against itself both win tables hold 0, and the
    two draw tables hold the same flag. *)
Theorem play_one_deck_diagonal {H : Host} (deck data : string) (batched : bool)
    (w w' : world) (tb : tables) (s : string) :
  play_one_deck deck data batched w = Ok (tb, w') ->
  In s sequences ->
  cell_at (p2_wins_cards tb) s s = Some 0 /\
  cell_at (p2_wins_tricks tb) s s = Some 0 /\
  cell_at (draws_cards tb) s s = cell_at (draws_tricks tb) s s /\
  (cell_at (draws_cards tb) s s = Some 0 \/
   cell_at (draws_cards tb) s s = Some 1).
Proof.
  intros Hrun Hs. rewrite (play_one_deck_returns _ _ _ _ _ _ Hrun).
  unfold full_tables. cbn [p2_wins_cards p2_wins_tricks draws_cards draws_tricks].
  rewrite !full_table_at by assumption.
  destruct (classify_same deck s) as (d & -> & Hd).
  cbn [cards_winner_of tricks_winner_of cards_draw_of tricks_draw_of].
  repeat split. destruct Hd as [-> | ->]; auto.
Qed.

Lemma play_one_deck_diagonal_witness :
  cell_at (p2_wins_cards (full_tables "0101010101")) "010" "010" = Some 0.
Proof.
  apply (@play_one_deck_diagonal example_host "0101010101" "data" true tt tt
           (full_tables "0101010101") "010").
  - vm_compute. reflexivity.
  - cbn. tauto.
Defined.

(** X7: in the tables [play_one_deck] returns, the cells of two different
    sequences and of the same two exchanged are tied: the draw tables hold
    the same flag in both, and for cards as for tricks exactly one of the
    two win cells and the draw cell holds 1. *)
Theorem play_one_deck_exchange {H : Host} (deck data : string) (batched : bool)
    (w w' : world) (tb : tables) (seq1 seq2 : string) :
  play_one_deck deck data batched w = Ok (tb, w') ->
  In seq1 sequences -> In seq2 sequences -> seq1 <> seq2 ->
  (exists win win' draw,
     cell_at (p2_wins_cards tb) seq1 seq2 = Some win /\
     cell_at (p2_wins_cards tb) seq2 seq1 = Some win' /\
     cell_at (draws_cards tb) seq1 seq2 = Some draw /\
     cell_at (draws_cards tb) seq2 seq1 = Some draw /\
     win + win' + draw = 1) /\
  (exists win win' draw,
     cell_at (p2_wins_tricks tb) seq1 seq2 = Some win /\
     cell_at (p2_wins_tricks tb) seq2 seq1 = Some win' /\
     cell_at (draws_tricks tb) seq1 seq2 = Some draw /\
     cell_at (draws_tricks tb) seq2 seq1 = Some draw /\
     win + win' + draw = 1).
Proof.
  intros Hrun H1 H2 Hne. rewrite (play_one_deck_returns _ _ _ _ _ _ Hrun).
  unfold full_tables. cbn [p2_wins_cards p2_wins_tricks draws_cards draws_tricks].
  rewrite !full_table_at by assumption.
  pose proof (classify_swap deck seq1 seq2 Hne) as Hsw.
  destruct (classify deck seq1 seq2) as [[[cw cd] tw] td].
  destruct (classify deck seq2 seq1) as [[[cw' cd'] tw'] td'].
  destruct Hsw as (-> & -> & Hc & Ht).
  cbn [cards_winner_of tricks_winner_of cards_draw_of tricks_draw_of].
  split; do 3 eexists; repeat split; eassumption.
Qed.

Lemma play_one_deck_exchange_witness :
  exists win win' draw,
    cell_at (p2_wins_cards (full_tables "0101010101")) "010" "101" = Some win /\
    cell_at (p2_wins_cards (full_tables "0101010101")) "101" "010" = Some win' /\
    cell_at (draws_cards (full_tables "0101010101")) "010" "101" = Some draw /\
    cell_at (draws_cards (full_tables "0101010101")) "101" "010" = Some draw /\
    win + win' + draw = 1.
Proof.
  apply (@play_one_deck_exchange example_host "0101010101" "data" true tt tt
           (full_tables "0101010101") "010" "101").
  - vm_compute. reflexivity.
  - cbn. tauto.
  - cbn. tauto.
  - discriminate.
Defined.

(** X8: once the deck has a name, batched mode returns the full tables and
    leaves the files alone, and unbatched mode succeeds exactly when four
    writes succeed one after the other: the cells of the card wins under
    [cards/], of the trick wins under [tricks/], of the card draws under
    [cards_ties/] and of the trick draws under [tricks_ties/], each in the
    file [<name>.npy] of that directory of [data]. *)
Theorem play_one_deck_writes {H : Host} (deck data name : string)
    (w w' : world) (tb : tables) :
  deck_name deck = Ok name ->
  play_one_deck deck data true w = Ok (full_tables deck, w) /\
  (play_one_deck deck data false w = Ok (tb, w') <->
   tb = full_tables deck /\
   exists w1 w2 w3,
     np_save (data ++ "/cards/" ++ name ++ ".npy")
       (Frame.values (p2_wins_cards (full_tables deck))) w = Ok w1 /\
     np_save (data ++ "/tricks/" ++ name ++ ".npy")
       (Frame.values (p2_wins_tricks (full_tables deck))) w1 = Ok w2 /\
     np_save (data ++ "/cards_ties/" ++ name ++ ".npy")
       (Frame.values (draws_cards (full_tables deck))) w2 = Ok w3 /\
     np_save (data ++ "/tricks_ties/" ++ name ++ ".npy")
       (Frame.values (draws_tricks (full_tables deck))) w3 = Ok w').
Proof.
  unfold deck_name. intros Hname.
  destruct (int_base2 deck) as [n |] eqn:Hn; cbn [bind] in Hname;
    [| discriminate].
  destruct (filled_tables deck) as (E1 & E2 & E3 & E4).
  unfold play_one_deck. cbv zeta.
  rewrite Hn. cbn [bind]. rewrite Hname. cbn [bind].
  rewrite E1. cbn [bind]. rewrite E2. cbn [bind].
  rewrite E3. cbn [bind]. rewrite E4. cbn [bind].
  split; [reflexivity |].
  unfold full_tables. cbn [p2_wins_cards p2_wins_tricks draws_cards draws_tricks].
  split.
  - destruct (np_save _ _ w) as [w1 |] eqn:S1; cbn [bind]; [| discriminate].
    destruct (np_save _ _ w1) as [w2 |] eqn:S2; cbn [bind]; [| discriminate].
    destruct (np_save _ _ w2) as [w3 |] eqn:S3; cbn [bind]; [| discriminate].
    destruct (np_save _ _ w3) as [w4 |] eqn:S4; cbn [bind]; [| discriminate].
    intros [= <- <-]. split; [reflexivity |].
    exists w1, w2, w3. auto.
  - intros (-> & w1 & w2 & w3 & S1 & S2 & S3 & S4).
    rewrite S1. cbn [bind]. rewrite S2. cbn [bind].
    rewrite S3. cbn [bind]. rewrite S4. cbn [bind]. reflexivity.
Qed.

Lemma play_one_deck_writes_witness :
  @play_one_deck example_host "0101010101" "data" true tt =
  Ok (full_tables "0101010101", tt).
Proof.
  destruct (@play_one_deck_writes example_host "0101010101" "data" "341" tt tt
              (full_tables "0101010101")) as [Hbatched _].
  - vm_compute. reflexivity.
  - exact Hbatched.
Defined.

(** The digits read by [int(deck, 2)] determine the deck among those of its
    length. *)
Lemma bin_digits_binary s :
  forall acc n, bin_digits s acc = Some n -> binary_digits s = true.
Proof.
  induction s as [| c rest IH]; intros acc n Hn; [reflexivity |].
  cbn [bin_digits binary_digits] in *.
  destruct (c =? "0")%char; [cbn [orb andb]; eapply IH, Hn |].
  destruct (c =? "1")%char; [cbn [orb andb]; eapply IH, Hn | discriminate].
Qed.

Lemma bin_digits_inj s :
  forall t a b n,
    String.length s = String.length t -> 0 <= a -> 0 <= b ->
    bin_digits s a = Some n -> bin_digits t b = Some n ->
    a = b /\ s = t.
Proof.
  induction s as [| c s IH]; intros [| d t] a b n Hlen Ha Hb Hs Ht;
    try discriminate.
  - cbn in Hs, Ht. split; [congruence | reflexivity].
  - cbn [String.length] in Hlen. injection Hlen as Hlen.
    cbn [bin_digits] in Hs, Ht.
    destruct (c =? "0")%char eqn:C0; destruct (d =? "0")%char eqn:D0;
      try (destruct (c =? "1")%char eqn:C1; [| discriminate]);
      try (destruct (d =? "1")%char eqn:D1; [| discriminate]);
      rewrite ?Ascii.eqb_eq in *;
      match goal with
      | Hs : bin_digits s ?x = Some n, Ht : bin_digits t ?y = Some n |- _ =>
          destruct (IH t x y n Hlen ltac:(lia) ltac:(lia) Hs Ht) as [Hacc ->]
      end;
      first [exfalso; lia | split; [lia | congruence]].
Qed.

Lemma str_inj {H : Host} a b name :
  str a = Ok name -> str b = Ok name -> a = b.
Proof.
  unfold str. intros Ha Hb.
  destruct (_ && _) in Ha; [discriminate |].
  destruct (_ && _) in Hb; [discriminate |].
  injection Ha as Ha. injection Hb as Hb.
  assert (Hrt : forall z, NilZero.int_of_string
                            (NilZero.string_of_int (Z.to_int z)) =
                          Some (Z.to_int z)).
  { intros z. apply NilZero.isi; destruct z; cbn; try discriminate;
      intros [= E]; apply (DecimalPos.Unsigned.to_uint_nonnil _ E). }
  apply DecimalZ.to_int_inj.
  assert (E : Some (Z.to_int a) = Some (Z.to_int b))
    by (rewrite <- !Hrt; congruence).
  injection E as E. exact E.
Qed.

(** X9: decks of one length never share a name: two non-empty decks of
    binary digits, of equal length, that line 125 gives the same name are
    the same deck. *)
Theorem deck_name_injective {H : Host} (deck1 deck2 name : string) :
  binary_deck deck1 = true -> binary_deck deck2 = true ->
  String.length deck1 = String.length deck2 ->
  deck_name deck1 = Ok name -> deck_name deck2 = Ok name ->
  deck1 = deck2.
Proof.
  unfold binary_deck. intros Hb1 Hb2 Hlen H1 H2.
  apply andb_true_iff in Hb1 as [_ Hb1]. apply andb_true_iff in Hb2 as [_ Hb2].
  destruct (bin_digits_value deck1 Hb1 0) as (n1 & B1 & _); [lia |].
  destruct (bin_digits_value deck2 Hb2 0) as (n2 & B2 & _); [lia |].
  unfold deck_name, int_base2 in H1, H2. rewrite B1 in H1. rewrite B2 in H2.
  destruct deck1 as [| c1 r1]; [discriminate |].
  destruct deck2 as [| c2 r2]; [discriminate |].
  cbn [bind] in H1, H2.
  pose proof (str_inj n1 n2 name H1 H2) as ->.
  apply (bin_digits_inj _ _ 0 0 n2 Hlen); (lia || assumption).
Qed.

Lemma deck_name_injective_witness :
  "0101010101" = "0101010101".
Proof.
  apply (@deck_name_injective example_host "0101010101" "0101010101" "341");
    vm_compute; reflexivity.
Defined.





(** ** The aggregator *)

(** The body of the loop of lines 180-186, on a host and a directory whose
    files hold object arrays of Python integers. *)
Lemma accumulate_games {H : Host} (data : string) (w : world) files games :
  Forall2 (fun file game =>
             np_load (os_path_join data file) w = Ok (IntObjects game))
          files games ->
  forall acc,
    Forall (fun game => shape game = shape acc) games ->
    exists sum,
      for_each
        (fun games_total file =>
           let file_path := os_path_join data file in
           game <- np_load file_path w ;;
           match games_total with
           | None => Ok (Some game)
           | Some acc => acc' <- np_iadd acc game ;; Ok (Some acc')
           end)
        files (Some (IntObjects acc)) = Ok (Some (IntObjects sum)) /\
      shape sum = shape acc /\
      forall r c,
        nth c (nth r sum []) 0 = nth c (nth r acc []) 0 + entry_sum r c games.
Proof.
  induction 1 as [| file game files games Hload _ IH]; intros acc Hshape.
  - exists acc. cbn. repeat split. intros r c. unfold entry_sum. cbn. lia.
  - inversion Hshape as [| ? ? Hg Hrest]; subst.
    cbn [for_each]. cbv zeta. rewrite Hload. cbn [bind].
    unfold np_iadd.
    destruct (list_eq_dec Nat.eq_dec (shape acc) (shape game)) as [_ | Hne];
      [| congruence].
    cbn [bind].
    assert (Hsum : shape (map2 (map2 Z.add) acc game) = shape acc)
      by (apply matrix_add_shape; congruence).
    destruct (IH (map2 (map2 Z.add) acc game)) as (sum & Hrun & Hs & Hcells).
    { rewrite Hsum. exact Hrest. }
    exists sum. split; [exact Hrun |]. split; [congruence |].
    intros r c. rewrite Hcells, matrix_add_nth by congruence.
    unfold entry_sum. cbn [map fold_right]. lia.
Qed.

(** The whole of [sum_games] on such a directory, without averaging. *)
Lemma sum_games_files {H : Host} (data : string) (batched_num_games : Z)
    (w : world) (names : list string) (file : string) (files : list string)
    (game : int_array) (games : list int_array) :
  os_listdir data w = Ok names ->
  filter (fun f => os_path_isfile (os_path_join data f) w) names = file :: files ->
  Forall2 (fun f g => np_load (os_path_join data f) w = Ok (IntObjects g))
          (file :: files) (game :: games) ->
  Forall (fun g => shape g = shape game) games ->
  exists sum,
    sum_games data false batched_num_games false w =
      Ok (Sum (IntObjects sum), Z.of_nat (length (game :: games))) /\
    shape sum = shape game /\
    forall r c, nth c (nth r sum []) 0 = entry_sum r c (game :: games).
Proof.
  intros Hls Hfiles Hload Hshape.
  inversion Hload as [| ? ? ? ? Hfirst Hrest]; subst.
  destruct (accumulate_games data w files games Hrest game Hshape)
    as (sum & Hrun & Hs & Hcells).
  exists sum. split; [| split].
  - unfold sum_games. rewrite Hls. cbn [bind]. rewrite Hfiles.
    cbn [for_each]. cbv zeta. rewrite Hfirst. cbn [bind].
    match goal with
    | |- bind ?run _ = _ =>
        replace run with (@Ok (option (ndarray foreign)) (Some (IntObjects sum)))
          by (symmetry; exact Hrun)
    end.
    cbn [bind].
    do 3 f_equal. cbn [length]. f_equal.
    apply (Forall2_length Hrest).
  - exact Hs.
  - intros r c. rewrite Hcells. unfold entry_sum. cbn [map fold_right]. lia.
Qed.

(** X11: a directory whose files all hold object arrays of Python integers
    of the shape of the first is summed entry by entry: without averaging,
    [sum_games] returns the array of that shape whose every entry is the sum
    of the files' entries at that place, and counts the files, passing over
    what is not a file. *)
Theorem sum_games_total {H : Host} (data : string) (batched_num_games : Z)
    (w : world) (names : list string) (file : string) (files : list string)
    (game : int_array) (games : list int_array) :
  os_listdir data w = Ok names ->
  filter (fun f => os_path_isfile (os_path_join data f) w) names = file :: files ->
  Forall2 (fun f g => np_load (os_path_join data f) w = Ok (IntObjects g))
          (file :: files) (game :: games) ->
  Forall (fun g => shape g = shape game) games ->
  exists sum,
    sum_games data false batched_num_games false w =
      Ok (Sum (IntObjects sum), Z.of_nat (length (game :: games))) /\
    shape sum = shape game /\
    forall r c, nth c (nth r sum []) 0 = entry_sum r c (game :: games).
Proof.
  apply sum_games_files.
Qed.

Lemma sum_games_total_witness :
  exists sum,
    @sum_games example_host "two" false 7 false tt =
      Ok (Sum (IntObjects sum), 2) /\
    shape sum = [2%nat; 2%nat].
Proof.
  destruct (@sum_games_total example_host "two" 7 tt
              ["a.npy"; "b.npy"] "a.npy" ["b.npy"]
              [[1; 0]; [0; 1]] [[[0; 1]; [1; 1]]])
    as (sum & Hrun & Hs & _).
  - reflexivity.
  - reflexivity.
  - repeat constructor.
  - repeat constructor.
  - exists sum. split; [exact Hrun | exact Hs].
Defined.

(** X12: a directory with no file in it (empty, or holding only
    sub-directories) has no total: without averaging [sum_games] returns
    [None] with the count (0 unbatched, the caller's number batched), and
    with averaging it raises [TypeError], [None] being indivisible. *)
Theorem sum_games_no_files {H : Host} (data : string) (batched_num_games : Z)
    (batched : bool) (w : world) (names : list string) :
  os_listdir data w = Ok names ->
  filter (fun f => os_path_isfile (os_path_join data f) w) names = [] ->
  sum_games data false batched_num_games batched w =
    Ok (NoTotal, if batched then batched_num_games else 0) /\
  sum_games data true batched_num_games batched w = Raise TypeError.
Proof.
  intros Hls Hfiles. unfold sum_games.
  rewrite Hls. cbn [bind]. rewrite Hfiles. cbn [for_each bind length Z.of_nat].
  split; reflexivity.
Qed.

Lemma sum_games_no_files_witness :
  @sum_games (table_host [("void", [])] []) "void" false 7 false tt =
    Ok (NoTotal, 0) /\
  @sum_games (table_host [("void", [])] []) "void" true 7 false tt =
    Raise TypeError.
Proof.
  apply (@sum_games_no_files (table_host [("void", [])] []) "void" 7 false tt []);
    reflexivity.
Defined.

(** X13: the count [sum_games] returns never depends on what the files
    hold: unbatched it is the number of directory entries that are files,
    batched it is the number the caller passed, whatever the directory. *)
Theorem sum_games_count {H : Host} (data : string) (average : bool)
    (batched_num_games : Z) (batched : bool) (w : world)
    (result : total) (count : Z) :
  sum_games data average batched_num_games batched w = Ok (result, count) ->
  exists names,
    os_listdir data w = Ok names /\
    count =
      if batched then batched_num_games
      else Z.of_nat
             (length (filter (fun f => os_path_isfile (os_path_join data f) w)
                             names)).
Proof.
  unfold sum_games.
  destruct (os_listdir data w) as [names |]; cbn [bind]; [| discriminate].
  destruct (for_each _ _ None) as [games_total |]; cbn [bind]; [| discriminate].
  intros Hrun. exists names. split; [reflexivity |].
  destruct average.
  - destruct (np_divide _ _); cbn [bind] in Hrun; [| discriminate].
    injection Hrun as _ <-. reflexivity.
  - injection Hrun as _ <-. reflexivity.
Qed.

Lemma sum_games_count_witness :
  exists names,
    @os_listdir example_host "two" tt = Ok names /\
    2 = Z.of_nat
          (length (filter (fun f => @os_path_isfile example_host
                                      (@os_path_join example_host "two" f) tt)
                          names)).
Proof.
  apply (@sum_games_count example_host "two" false 7 false tt
           (Sum (IntObjects [[1; 1]; [1; 2]])) 2).
  reflexivity.
Defined.

Lemma traverse_length {A B : Type} (f : A -> result B) (xs : list A) ys :
  traverse f xs = Ok ys -> length ys = length xs.
Proof.
  revert ys. induction xs as [| x xs IH]; cbn [traverse]; intros ys Hys.
  - injection Hys as <-. reflexivity.
  - destruct (f x) as [y |]; cbn [bind] in Hys; [| discriminate].
    destruct (traverse f xs) as [ys' |]; cbn [bind] in Hys; [| discriminate].
    injection Hys as <-. cbn [length]. f_equal. apply IH. reflexivity.
Qed.

Lemma traverse_shape {A B : Type} (f : A -> result B) (m : list (list A)) m' :
  traverse (traverse f) m = Ok m' -> shape m' = shape m.
Proof.
  revert m'. induction m as [| row m IH]; cbn [traverse]; intros m' Hm.
  - injection Hm as <-. reflexivity.
  - destruct (traverse f row) as [row' |] eqn:Hrow; cbn [bind] in Hm;
      [| discriminate].
    destruct (traverse (traverse f) m) as [m0 |]; cbn [bind] in Hm;
      [| discriminate].
    injection Hm as <-. unfold shape in *. cbn [map]. f_equal.
    + apply (traverse_length f row row' Hrow).
    + apply IH. reflexivity.
Qed.

(** X14: averaging changes neither the count nor the shape: where
    [sum_games] returns an object array of Python integers as the total, and
    with averaging returns at all, it returns the same count and an object
    array of floats of the shape of the total. *)
Theorem sum_games_mean {H : Host} (data : string) (batched_num_games : Z)
    (batched : bool) (w : world) (sum : int_array) (count count' : Z)
    (mean : total) :
  sum_games data false batched_num_games batched w =
    Ok (Sum (IntObjects sum), count) ->
  sum_games data true batched_num_games batched w = Ok (mean, count') ->
  count' = count /\
  exists rows, mean = Mean (FloatObjects rows) /\ shape rows = shape sum.
Proof.
  unfold sum_games.
  destruct (os_listdir data w) as [names |]; cbn [bind]; [| discriminate].
  destruct (for_each _ _ None) as [[games_total |] |]; cbn [bind];
    try discriminate.
  intros [= -> <-]. unfold np_divide.
  destruct (traverse _ sum) as [rows |] eqn:Hrows; cbn [bind];
    [| discriminate].
  intros [= <- <-]. split; [reflexivity |].
  exists rows. split; [reflexivity |].
  apply (traverse_shape _ _ _ Hrows).
Qed.

Lemma sum_games_mean_witness :
  2 = 2 /\
  exists rows,
    Mean (FloatObjects
            [[S754_finite false 4503599627370496 (-53);
              S754_finite false 4503599627370496 (-53)];
             [S754_finite false 4503599627370496 (-53);
              S754_finite false 4503599627370496 (-52)]]) =
      @Mean example_host (FloatObjects rows) /\
    shape rows = shape [[1; 1]; [1; 2]].
Proof.
  apply (@sum_games_mean example_host "two" 7 false tt [[1; 1]; [1; 2]] 2 2).
  - reflexivity.
  - vm_compute. reflexivity.
Defined.

(** ** The first trick *)

(** While no window is one of the sequences the scan moves one symbol at a
    time and the pile grows with it. *)
Lemma scan_loop_passed deck seq1 seq2 (n : nat) :
  Z.of_nat n <= Py.len deck - 2 ->
  (forall j, 0 <= j < Z.of_nat n ->
     Py.slice deck j (j + 3) <> seq1 /\ Py.slice deck j (j + 3) <> seq2) ->
  scan_loop deck seq1 seq2 scan_init =
  scan_loop deck seq1 seq2 (passed (Z.of_nat n)).
Proof.
  induction n as [| n IH]; intros Hn Hno.
  - reflexivity.
  - rewrite IH by (intros; try apply Hno; lia).
    rewrite scan_loop_eq. unfold loop_cond. cbn [i passed].
    replace (Z.of_nat n <? Py.len deck - 2) with true
      by (symmetry; apply Z.ltb_lt; lia).
    destruct (Hno (Z.of_nat n)) as [N1 N2]; [lia |].
    apply String.eqb_neq in N1, N2.
    unfold loop_body. cbn [i pile passed p1_cards p2_cards p1_tricks p2_tricks].
    rewrite N1, N2. unfold passed. do 2 f_equal; lia.
Qed.

(** X15: the sequence that stands first in the deck takes the first trick:
    if no window before cursor [k] is one of the two sequences and the window
    at [k] is [seq1], player 1 gets at least one trick and at least the
    [k + 3] cards passed; likewise player 2 if the window at [k] is [seq2]
    and not [seq1]. *)
Theorem score_deck_first_trick (deck seq1 seq2 : string) (k : Z) :
  0 <= k < Py.len deck - 2 ->
  (forall j, 0 <= j < k ->
     Py.slice deck j (j + 3) <> seq1 /\ Py.slice deck j (j + 3) <> seq2) ->
  let '(c1, c2, t1, t2) := score_deck deck seq1 seq2 in
  (Py.slice deck k (k + 3) = seq1 -> 1 <= t1 /\ k + 3 <= c1) /\
  (Py.slice deck k (k + 3) <> seq1 -> Py.slice deck k (k + 3) = seq2 ->
   1 <= t2 /\ k + 3 <= c2).
Proof.
  intros Hk Hno. unfold score_deck, outputs.
  assert (Hkk : Z.of_nat (Z.to_nat k) = k) by lia.
  rewrite (scan_loop_passed deck seq1 seq2 (Z.to_nat k));
    rewrite Hkk; [| lia | exact Hno].
  rewrite scan_loop_eq. unfold loop_cond. cbn [i passed].
  replace (k <? Py.len deck - 2) with true by (symmetry; apply Z.ltb_lt; lia).
  unfold loop_body. cbn [i pile passed p1_cards p2_cards p1_tricks p2_tricks].
  split.
  - intros E. apply String.eqb_eq in E. rewrite E.
    match goal with
    | |- context [scan_loop deck seq1 seq2 ?st] =>
        pose proof (scan_loop_grows deck seq1 seq2 st) as Hg
    end.
    cbn [pile p1_cards p2_cards p1_tricks p2_tricks] in Hg. lia.
  - intros N E. apply String.eqb_neq in N. apply String.eqb_eq in E.
    rewrite N, E.
    match goal with
    | |- context [scan_loop deck seq1 seq2 ?st] =>
        pose proof (scan_loop_grows deck seq1 seq2 st) as Hg
    end.
    cbn [pile p1_cards p2_cards p1_tricks p2_tricks] in Hg. lia.
Qed.

Lemma score_deck_first_trick_witness :
  let '(c1, c2, t1, t2) := score_deck "1101000" "010" "000" in
  (Py.slice "1101000" 2 (2 + 3) = "010" -> 1 <= t1 /\ 2 + 3 <= c1) /\
  (Py.slice "1101000" 2 (2 + 3) <> "010" ->
   Py.slice "1101000" 2 (2 + 3) = "000" -> 1 <= t2 /\ 2 + 3 <= c2).
Proof.
  apply (score_deck_first_trick "1101000" "010" "000" 2).
  - vm_compute. split; [discriminate | reflexivity].
  - intros j Hj.
    assert (Hcases : j = 0 \/ j = 1) by lia.
    destruct Hcases as [-> | ->]; vm_compute; split; discriminate.
Defined.

(** ** Flags and their totals *)

Lemma classify_flags deck seq1 seq2 :
  let '(cw, cd, tw, td) := classify deck seq1 seq2 in
  ((cw = 1 /\ cd = 0) \/ (cw = 0 /\ cd = 1) \/ (cw = 0 /\ cd = 0)) /\
  ((tw = 1 /\ td = 0) \/ (tw = 0 /\ td = 1) \/ (tw = 0 /\ td = 0)).
Proof.
  unfold classify.
  destruct (score_deck deck seq1 seq2) as [[[c1 c2] t1] t2].
  unfold calculate_winner.
  destruct (c1 <? c2); [| destruct (c1 =? c2)];
    (destruct (t1 <? t2); [| destruct (t1 =? t2)]);
    cbv zeta iota beta; tauto.
Qed.

(** X16: every cell of the tables [play_one_deck] returns holds a flag, 0 or
    1, and no cell is a win and a draw at once: for cards as for tricks, the
    win cell and the draw cell of a pair of sequences hold (1, 0), (0, 1) or
    (0, 0). *)
Theorem play_one_deck_flags {H : Host} (deck data : string) (batched : bool)
    (w w' : world) (tb : tables) (seq1 seq2 : string) :
  play_one_deck deck data batched w = Ok (tb, w') ->
  In seq1 sequences -> In seq2 sequences ->
  (exists win draw,
     cell_at (p2_wins_cards tb) seq1 seq2 = Some win /\
     cell_at (draws_cards tb) seq1 seq2 = Some draw /\
     ((win = 1 /\ draw = 0) \/ (win = 0 /\ draw = 1) \/ (win = 0 /\ draw = 0))) /\
  (exists win draw,
     cell_at (p2_wins_tricks tb) seq1 seq2 = Some win /\
     cell_at (draws_tricks tb) seq1 seq2 = Some draw /\
     ((win = 1 /\ draw = 0) \/ (win = 0 /\ draw = 1) \/ (win = 0 /\ draw = 0))).
Proof.
  intros Hrun H1 H2. rewrite (play_one_deck_returns _ _ _ _ _ _ Hrun).
  unfold full_tables. cbn [p2_wins_cards p2_wins_tricks draws_cards draws_tricks].
  rewrite !full_table_at by assumption.
  pose proof (classify_flags deck seq1 seq2) as Hf.
  destruct (classify deck seq1 seq2) as [[[cw cd] tw] td].
  destruct Hf as [Hc Ht].
  cbn [cards_winner_of tricks_winner_of cards_draw_of tricks_draw_of].
  split; do 2 eexists; repeat split; assumption.
Qed.

Lemma play_one_deck_flags_witness :
  exists win draw,
    cell_at (p2_wins_cards (full_tables "0101010101")) "010" "101" = Some win /\
    cell_at (draws_cards (full_tables "0101010101")) "010" "101" = Some draw /\
    ((win = 1 /\ draw = 0) \/ (win = 0 /\ draw = 1) \/ (win = 0 /\ draw = 0)).
Proof.
  apply (@play_one_deck_flags example_host "0101010101" "data" true tt tt
           (full_tables "0101010101") "010" "101").
  - vm_compute. reflexivity.
  - cbn. tauto.
  - cbn. tauto.
Defined.

Lemma entry_sum_flags r c (games : list int_array) :
  (forall game, In game games -> 0 <= nth c (nth r game []) 0 <= 1) ->
  0 <= entry_sum r c games <= Z.of_nat (length games).
Proof.
  unfold entry_sum. induction games as [| game games IH]; intros Hflags.
  - cbn. lia.
  - cbn [map fold_right length].
    pose proof (Hflags game (or_introl eq_refl)).
    assert (0 <= fold_right Z.add 0
                   (map (fun g => nth c (nth r g []) 0) games)
            <= Z.of_nat (length games))
      by (apply IH; intros g Hg; apply Hflags; right; exact Hg).
    lia.
Qed.

(** X17: totals of flags are counts: if every file of the directory holds
    an object array of Python integers of one shape whose entries are 0 or
    1, every entry of the sum lies between 0 and the number of games
    returned with it. *)
Theorem sum_games_flags {H : Host} (data : string) (batched_num_games : Z)
    (w : world) (names : list string) (file : string) (files : list string)
    (game : int_array) (games : list int_array) :
  os_listdir data w = Ok names ->
  filter (fun f => os_path_isfile (os_path_join data f) w) names = file :: files ->
  Forall2 (fun f g => np_load (os_path_join data f) w = Ok (IntObjects g))
          (file :: files) (game :: games) ->
  Forall (fun g => shape g = shape game) games ->
  (forall g r c, In g (game :: games) -> 0 <= nth c (nth r g []) 0 <= 1) ->
  exists sum count,
    sum_games data false batched_num_games false w =
      Ok (Sum (IntObjects sum), count) /\
    forall r c, 0 <= nth c (nth r sum []) 0 <= count.
Proof.
  intros Hls Hfiles Hload Hshape Hflags.
  destruct (sum_games_files data batched_num_games w names file files
              game games Hls Hfiles Hload Hshape)
    as (sum & Hrun & _ & Hcells).
  exists sum, (Z.of_nat (length (game :: games))). split; [exact Hrun |].
  intros r c. rewrite Hcells.
  apply entry_sum_flags. intros g Hg. apply Hflags, Hg.
Qed.

Lemma sum_games_flags_witness :
  exists sum count,
    @sum_games example_host "two" false 7 false tt =
      Ok (Sum (IntObjects sum), count) /\
    forall r c, 0 <= nth c (nth r sum []) 0 <= count.
Proof.
  apply (@sum_games_flags example_host "two" 7 tt
           ["a.npy"; "b.npy"] "a.npy" ["b.npy"]
           [[1; 0]; [0; 1]] [[[0; 1]; [1; 1]]]).
  - reflexivity.
  - reflexivity.
  - repeat constructor.
  - repeat constructor.
  - intros g r c [<- | [<- | []]];
      (destruct r as [| [| [| r]]]; destruct c as [| [| [| c]]]; cbn; lia).
Defined.
